(** * Advanced Nostr Search: the logic of [src/App.tsx]

    A shallow embedding of the single component [App] of the repository:
    the identifier decoding, the submit handler with its relay session, the
    incremental reveal of the result list and the synchronisation of the form
    with the query string of the page address.

    Conventions of the embedding.
    - A JavaScript string is a [string]: the bytes of its UTF-8 encoding, an
      unpaired surrogate being written as the three bytes of its code point
      (ED A0 80 for U+D800).  [undefined] and [null] are [None].
    - Array lengths and the reveal cursor are [nat]; epoch milliseconds are
      [Z]; a number obtained by a division is a [number] (see below).
    - What the component calls of the browser ([URLSearchParams], the text
      decoder, [Date] on a calendar date, [history.replaceState] on a page
      served over http or https) is written out after the standards that
      define it; what is left open (the [nip19.decode] and the relay of
      nostr-tools, what [Date] makes of any other string) is taken from an
      environment record [Env], and the host a path that begins with two
      slashes names from an [Origin]. *)

From Stdlib Require Import Bool Arith ZArith NArith QArith Lia List String Ascii.
Import ListNotations.
Local Close Scope Q_scope.
Local Open Scope string_scope.
Local Open Scope list_scope.

Set Implicit Arguments.

(* ===================================================================== *)
(** * Bytes *)
(* ===================================================================== *)

Definition byte_in (lo hi : N) (c : ascii) : bool :=
  (N.leb lo (N_of_ascii c) && N.leb (N_of_ascii c) hi)%bool.

Fixpoint is_ascii (s : string) : bool :=
  match s with
  | EmptyString => true
  | String c r => (N.ltb (N_of_ascii c) 128 && is_ascii r)%bool
  end.

Fixpoint contains (sep : ascii) (s : string) : bool :=
  match s with
  | EmptyString => false
  | String c r => (Ascii.eqb c sep || contains sep r)%bool
  end.

(* ===================================================================== *)
(** * Text decoding

    The parser of a query string ends with "UTF-8 decode without BOM": bytes
    that are not well-formed UTF-8 become U+FFFD.  Since a JavaScript string
    is modelled by its UTF-8 bytes, the decoder is a function from bytes to
    well-formed bytes.  [UTF8.sanitize] is the decoder of the Encoding
    Standard.

    The methods of [URLSearchParams] take their arguments as USVStrings:
    Web IDL replaces each unpaired surrogate of the JavaScript string by
    U+FFFD on the way in ([USVString]).

    [lawful_decoder] states the laws the development uses: decoding text
    again changes nothing, ASCII is left alone, and text holds no
    surrogate. *)
(* ===================================================================== *)

Definition TextDecoder : Type := string -> string.

Module UTF8.

(** What a lead byte announces: the number of continuation bytes and the
    range allowed for the first of them. *)
Inductive lead : Type :=
| Single
| Needs (n : nat) (lo hi : N)
| Invalid.

Definition classify (c : ascii) : lead :=
  let b := N_of_ascii c in
  if N.leb b 127 then Single
  else if byte_in 194 223 c then Needs 1 128 191
  else if N.eqb b 224 then Needs 2 160 191
  else if N.eqb b 237 then Needs 2 128 159
  else if byte_in 225 239 c then Needs 2 128 191
  else if N.eqb b 240 then Needs 3 144 191
  else if N.eqb b 244 then Needs 3 128 143
  else if byte_in 241 243 c then Needs 3 128 191
  else Invalid.

(** U+FFFD in UTF-8: EF BF BD. *)
Definition replacement (r : string) : string :=
  String (ascii_of_N 239) (String (ascii_of_N 191) (String (ascii_of_N 189) r)).

(** Decoding followed by re-encoding.  A sequence that stops short is
    replaced by one U+FFFD and decoding resumes at the offending byte. *)
Fixpoint sanitize (s : string) : string :=
  match s with
  | EmptyString => EmptyString
  | String b r =>
    match classify b with
    | Single => String b (sanitize r)
    | Invalid => replacement (sanitize r)
    | Needs n lo hi =>
      match r with
      | EmptyString => replacement EmptyString
      | String c1 r1 =>
        if negb (byte_in lo hi c1) then replacement (sanitize r)
        else
          match n with
          | 1%nat => String b (String c1 (sanitize r1))
          | _ =>
            match r1 with
            | EmptyString => replacement EmptyString
            | String c2 r2 =>
              if negb (byte_in 128 191 c2) then replacement (sanitize r1)
              else
                match n with
                | 2%nat => String b (String c1 (String c2 (sanitize r2)))
                | _ =>
                  match r2 with
                  | EmptyString => replacement EmptyString
                  | String c3 r3 =>
                    if negb (byte_in 128 191 c3) then replacement (sanitize r2)
                    else String b (String c1 (String c2 (String c3 (sanitize r3))))
                  end
                end
            end
          end
      end
    end
  end.

End UTF8.

(** The conversion of a JavaScript string to a USVString.  The three bytes
    ED A0..BF 80..BF are a surrogate, U+D800 to U+DFFF, and in the bytes of a
    JavaScript string an unpaired one: it becomes U+FFFD. *)
Fixpoint USVString (s : string) : string :=
  match s with
  | EmptyString => EmptyString
  | String b r =>
    if N.eqb (N_of_ascii b) 237 then
      match r with
      | String c1 (String c2 r2) =>
        if (byte_in 160 191 c1 && byte_in 128 191 c2)%bool
        then UTF8.replacement (USVString r2)
        else String b (USVString r)
      | _ => String b (USVString r)
      end
    else String b (USVString r)
  end.

Record lawful_decoder (D : TextDecoder) : Prop := {
  decode_text_idem : forall b, D (D b) = D b;
  decode_text_ascii : forall s, is_ascii s = true -> D s = s;
  decode_text_scalar : forall s, D s = s -> USVString s = s
}.

(* ===================================================================== *)
(** * URLSearchParams (URL Standard, application/x-www-form-urlencoded) *)
(* ===================================================================== *)

Module URLSearchParams.

(** The object is its list of name-value tuples: order and duplicates
    matter for [get], [set] and [delete]. *)
Definition t : Type := list (string * string).

(** ** Serializing *)

(** Bytes left as they are: ASCII alphanumerics and [*-._]. *)
Definition is_safe (c : ascii) : bool :=
  (byte_in 48 57 c || byte_in 65 90 c || byte_in 97 122 c
   || N.eqb (N_of_ascii c) 42 || N.eqb (N_of_ascii c) 45
   || N.eqb (N_of_ascii c) 46 || N.eqb (N_of_ascii c) 95)%bool.

Definition hex_digit (n : N) : ascii :=
  if N.ltb n 10 then ascii_of_N (48 + n)%N else ascii_of_N (55 + n)%N.

Fixpoint percent_encode (s : string) : string :=
  match s with
  | EmptyString => EmptyString
  | String c r =>
    if Ascii.eqb c " " then String "+" (percent_encode r)
    else if is_safe c then String c (percent_encode r)
    else String "%" (String (hex_digit (N_of_ascii c / 16)%N)
                      (String (hex_digit (N_of_ascii c mod 16)%N) (percent_encode r)))
  end.

Definition serialize_tuple (p : string * string) : string :=
  percent_encode (fst p) ++ String "=" (percent_encode (snd p)).

(** [toString()] *)
Fixpoint toString (l : t) : string :=
  match l with
  | [] => EmptyString
  | [p] => serialize_tuple p
  | p :: rest => serialize_tuple p ++ String "&" (toString rest)
  end.

(** ** Parsing *)

Definition hex_value (c : ascii) : option N :=
  let b := N_of_ascii c in
  if byte_in 48 57 c then Some (b - 48)%N
  else if byte_in 65 70 c then Some (b - 55)%N
  else if byte_in 97 102 c then Some (b - 87)%N
  else None.

Fixpoint percent_decode (s : string) : string :=
  match s with
  | EmptyString => EmptyString
  | String c r =>
    if Ascii.eqb c "%" then
      match r with
      | String h (String l r') =>
        match hex_value h, hex_value l with
        | Some hi, Some lo => String (ascii_of_N (16 * hi + lo)%N) (percent_decode r')
        | _, _ => String c (percent_decode r)
        end
      | _ => String c (percent_decode r)
      end
    else String c (percent_decode r)
  end.

Fixpoint plus_to_space (s : string) : string :=
  match s with
  | EmptyString => EmptyString
  | String c r => String (if Ascii.eqb c "+" then " "%char else c) (plus_to_space r)
  end.

(** Strictly split on a separator: one more piece than separators. *)
Fixpoint split_on (sep : ascii) (s : string) : list string :=
  match s with
  | EmptyString => [EmptyString]
  | String c r =>
    if Ascii.eqb c sep then EmptyString :: split_on sep r
    else match split_on sep r with
         | [] => [String c EmptyString]
         | h :: tl => String c h :: tl
         end
  end.

(** The part before the first separator and the part after it; the whole
    and the empty string when there is none. *)
Fixpoint cut_at (sep : ascii) (s : string) : string * string :=
  match s with
  | EmptyString => (EmptyString, EmptyString)
  | String c r =>
    if Ascii.eqb c sep then (EmptyString, r)
    else let (a, b) := cut_at sep r in (String c a, b)
  end.

Definition is_empty (s : string) : bool :=
  match s with EmptyString => true | _ => false end.

Definition parse_piece (D : TextDecoder) (piece : string) : string * string :=
  let (n, v) := cut_at "=" piece in
  (D (percent_decode (plus_to_space n)),
   D (percent_decode (plus_to_space v))).

Definition parse (D : TextDecoder) (input : string) : t :=
  map (parse_piece D) (filter (fun piece => negb (is_empty piece)) (split_on "&" input)).

(** [new URLSearchParams(init)] for a string: one leading [?] is dropped.
    The component passes [location.search], which is ASCII. *)
Definition new (D : TextDecoder) (init : string) : t :=
  match init with
  | String "?" r => parse D r
  | _ => parse D init
  end.

(** ** The methods the component calls

    The list operations of the URL Standard, on names and values that are
    USVStrings already; the callers convert. *)

(** [get(name)]: the value of the first tuple of that name, or [null]. *)
Fixpoint get (name : string) (l : t) : option string :=
  match l with
  | [] => None
  | (n, v) :: rest => if String.eqb n name then Some v else get name rest
  end.

(** [delete(name)]: every tuple of that name goes. *)
Definition delete (name : string) (l : t) : t :=
  filter (fun p => negb (String.eqb (fst p) name)) l.

Definition has (name : string) (l : t) : bool :=
  existsb (fun p => String.eqb (fst p) name) l.

(** [set(name, value)]: the first tuple of that name takes the value and the
    others go; with no such tuple, one is appended. *)
Fixpoint set (name value : string) (l : t) : t :=
  match l with
  | [] => [(name, value)]
  | (n, v) :: rest =>
    if String.eqb n name then (name, value) :: delete name rest
    else (n, v) :: set name value rest
  end.

End URLSearchParams.

(* ===================================================================== *)
(** * Numbers and dates *)
(* ===================================================================== *)

(** A JavaScript number that results from a division.  [Num q] stands for
    the double nearest to the rational [q], kept in lowest terms; when [q] is
    an integer below 2^53 in magnitude that double is [q] itself. *)
Inductive number : Type :=
| NaN
| Num (q : Q).

Definition number_of_Z (z : Z) : number := Num (inject_Z z).

Definition is_integer (x : number) : Prop :=
  exists z : Z, x = number_of_Z z.

Module JSDate.

Local Open Scope Z_scope.

Definition msPerDay : Z := 86400000.

(** ECMAScript, "Day Number and Time within Day" and "Year Number". *)
Definition DayFromYear (y : Z) : Z :=
  365 * (y - 1970) + (y - 1969) / 4 - (y - 1901) / 100 + (y - 1601) / 400.

Definition InLeapYear (y : Z) : bool :=
  ((y mod 4 =? 0) && (negb (y mod 100 =? 0) || (y mod 400 =? 0)))%bool.

Definition DaysInMonth (y m : Z) : Z :=
  if m =? 2 then (if InLeapYear y then 29 else 28)
  else if (m =? 4) || (m =? 6) || (m =? 9) || (m =? 11) then 30
  else 31.

(** Days of the year before month [m] (1 = January). *)
Definition DaysBeforeMonth (y m : Z) : Z :=
  let leap := if InLeapYear y then 1 else 0 in
  if m =? 1 then 0
  else if m =? 2 then 31
  else if m =? 3 then 59 + leap
  else if m =? 4 then 90 + leap
  else if m =? 5 then 120 + leap
  else if m =? 6 then 151 + leap
  else if m =? 7 then 181 + leap
  else if m =? 8 then 212 + leap
  else if m =? 9 then 243 + leap
  else if m =? 10 then 273 + leap
  else if m =? 11 then 304 + leap
  else 334 + leap.

(** The day number of the calendar date [y]-[m]-[d]: days since
    1970-01-01. *)
Definition DayNumber (y m d : Z) : Z :=
  DayFromYear y + DaysBeforeMonth y m + (d - 1).

Definition legal_date (y m d : Z) : bool :=
  ((0 <=? y) && (y <=? 9999) && (1 <=? m) && (m <=? 12)
   && (1 <=? d) && (d <=? DaysInMonth y m))%bool.

Definition digit (c : ascii) : option Z :=
  if byte_in 48 57 c then Some (Z.of_N (N_of_ascii c) - 48) else None.

Definition number2 (a b : ascii) : option Z :=
  match digit a, digit b with
  | Some x, Some y => Some (10 * x + y)
  | _, _ => None
  end.

Definition number4 (a b c d : ascii) : option Z :=
  match number2 a b, number2 c d with
  | Some x, Some y => Some (100 * x + y)
  | _, _ => None
  end.

(** The date-only form [YYYY-MM-DD] of the Date Time String Format, which
    is what an input of type [date] holds, with legal field values. *)
Definition parse_date_only (s : string) : option (Z * Z * Z) :=
  match s with
  | String y1 (String y2 (String y3 (String y4 (String s1
      (String m1 (String m2 (String s2 (String d1 (String d2 EmptyString))))))))) =>
    if (Ascii.eqb s1 "-" && Ascii.eqb s2 "-")%bool then
      match number4 y1 y2 y3 y4, number2 m1 m2, number2 d1 d2 with
      | Some y, Some m, Some d =>
        if legal_date y m d then Some (y, m, d) else None
      | _, _, _ => None
      end
    else None
  | _ => None
  end.

(** [new Date(s).getTime()]: the time value in milliseconds, [None] for
    [NaN].  A date-only form is read as UTC ("When the UTC offset
    representation is absent, date-only forms are interpreted as a UTC
    time"); what the engine makes of any other string is [other]. *)
Definition getTime (other : string -> option Z) (s : string) : option Z :=
  match parse_date_only s with
  | Some (y, m, d) => Some (DayNumber y m d * msPerDay)
  | None => other s
  end.

(** [t / 1000] *)
Definition div1000 (t : option Z) : number :=
  match t with
  | None => NaN
  | Some ms => Num (Qred (ms # 1000))
  end.

(** The reading the specification gives of a date-only input: midnight of
    that calendar date in local time, in epoch seconds.  [tza] is the
    offset of local time from UTC in milliseconds (UTC(t) = t - tza). *)
Definition spec_local_midnight_seconds (tza y m d : Z) : number :=
  Num (Qred ((DayNumber y m d * msPerDay - tza) # 1000)).

(** The display form of a calendar date. *)
Definition digit_char (n : Z) : ascii := ascii_of_N (Z.to_N (48 + n)).

Definition format_date_only (y m d : Z) : string :=
  String (digit_char (y / 1000)) (String (digit_char (y / 100 mod 10))
  (String (digit_char (y / 10 mod 10)) (String (digit_char (y mod 10))
  (String "-" (String (digit_char (m / 10)) (String (digit_char (m mod 10))
  (String "-" (String (digit_char (d / 10)) (String (digit_char (d mod 10))
   EmptyString))))))))).

End JSDate.

(* ===================================================================== *)
(** * nostr-tools: events, filters, identifiers *)
(* ===================================================================== *)

Record Event : Type := {
  id : string;
  pubkey : string;
  created_at : Z;
  kind : Z;
  tags : list (list string);
  content : string
}.

(** A filter of a subscription.  An entry of [authors] is [None] where the
    array holds [undefined]; an absent bound or search text is [None]. *)
Record Filter : Type := {
  kinds : list Z;
  authors : list (option string);
  search : option string;
  since : option number;
  until : option number
}.

(** What [nip19.decode] returns: the declared kind of the payload and the
    payload.  The payload of an ["npub"] is the hex key; the component reads
    the payload of no other kind. *)
Record DecodeResult : Type := {
  type : string;
  data : string
}.

(** What a call may throw: an instance of [Error] with its message, or any
    other value (here by its string form). *)
Inductive Thrown : Type :=
| ErrorInstance (message : string)
| OtherValue (v : string).

Inductive DecodeOutcome : Type :=
| Returns (r : DecodeResult)
| Throws (e : Thrown).

(** How [relay.connect()] ends: the [connect] event, the [error] event, or
    neither. *)
Inductive Connection : Type :=
| Connected
| Failed
| Pending.

(** The environment of the component: the decoder of identifiers, the time
    value the engine gives a string that is not a legal date-only form
    ([None] for [NaN]), how the connection ends, and the answers of the relay
    to [relay.get] and [relay.list]. *)
Record Env : Type := {
  nip19_decode : string -> DecodeOutcome;
  Date_parse_other : string -> option Z;
  relay_connect : Connection;
  relay_get : Filter -> option Event;
  relay_list : list Filter -> list Event
}.

(* ===================================================================== *)
(** * The component [App] *)
(* ===================================================================== *)

Definition INCLUDE_FOLLOWED_USERS_QUERY_PARAM : string := "includeFollowed".

Definition RELAY_URL : string := "wss://relay.nostr.band".

Record Toast : Type := {
  title : string;
  status : string
}.

(** The state hooks of the component. *)
Record AppState : Type := {
  isSearching : bool;
  npub : string;
  includeNotesFromFollowedUsers : bool;
  query : string;
  fromDate : string;
  toDate : string;
  events : list Event;
  currentDataLength : nat
}.

(** [window.location], as far as the component reads and writes it. *)
Record Location : Type := {
  pathname : string;
  search_string : string
}.

(** What the component asks of the relay, in order. *)
Inductive NetAction : Type :=
| RelayInit (url : string)
| RelayConnect
| RelayGet (f : Filter)
| RelayList (fs : list Filter)
| RelayClose.

(** Everything a handler can change. *)
Record World : Type := {
  app : AppState;
  location : Location;
  toasts : list Toast;
  console : list string;
  network : list NetAction
}.

(** ** Handlers as state transformers *)

Definition M (A : Type) : Type := World -> A * World.

Definition ret {A : Type} (a : A) : M A := fun w => (a, w).

Definition bind {A B : Type} (m : M A) (k : A -> M B) : M B :=
  fun w => let (a, w') := m w in k a w'.

Definition exec {A : Type} (m : M A) (w : World) : World := snd (m w).

Declare Scope handler_scope.
Delimit Scope handler_scope with handler.
Notation "x <- m ;; k" := (bind m (fun x => k))
  (at level 61, m at next level, right associativity) : handler_scope.
Notation "m ;; k" := (bind m (fun _ => k))
  (at level 61, right associativity) : handler_scope.
Local Open Scope handler_scope.

Definition modify_app (f : AppState -> AppState) : M unit :=
  fun w => (tt, {| app := f (app w); location := location w; toasts := toasts w;
                   console := console w; network := network w |}).

Definition toast (t : Toast) : M unit :=
  fun w => (tt, {| app := app w; location := location w; toasts := toasts w ++ [t];
                   console := console w; network := network w |}).

Definition console_log (line : string) : M unit :=
  fun w => (tt, {| app := app w; location := location w; toasts := toasts w;
                   console := console w ++ [line]; network := network w |}).

Definition request (a : NetAction) : M unit :=
  fun w => (tt, {| app := app w; location := location w; toasts := toasts w;
                   console := console w; network := network w ++ [a] |}).

Definition set_location (l : Location) : M unit :=
  fun w => (tt, {| app := app w; location := l; toasts := toasts w;
                   console := console w; network := network w |}).

Definition read_app : M AppState := fun w => (app w, w).

Definition read_location : M Location := fun w => (location w, w).

(** ** The setters of the state hooks *)

Definition setIsSearching (b : bool) : M unit :=
  modify_app (fun s =>
    {| isSearching := b; npub := npub s;
       includeNotesFromFollowedUsers := includeNotesFromFollowedUsers s;
       query := query s; fromDate := fromDate s; toDate := toDate s;
       events := events s; currentDataLength := currentDataLength s |}).

Definition setNpub (v : string) : M unit :=
  modify_app (fun s =>
    {| isSearching := isSearching s; npub := v;
       includeNotesFromFollowedUsers := includeNotesFromFollowedUsers s;
       query := query s; fromDate := fromDate s; toDate := toDate s;
       events := events s; currentDataLength := currentDataLength s |}).

Definition setIncludeNotesFromFollowedUsers (b : bool) : M unit :=
  modify_app (fun s =>
    {| isSearching := isSearching s; npub := npub s;
       includeNotesFromFollowedUsers := b;
       query := query s; fromDate := fromDate s; toDate := toDate s;
       events := events s; currentDataLength := currentDataLength s |}).

Definition setQuery (v : string) : M unit :=
  modify_app (fun s =>
    {| isSearching := isSearching s; npub := npub s;
       includeNotesFromFollowedUsers := includeNotesFromFollowedUsers s;
       query := v; fromDate := fromDate s; toDate := toDate s;
       events := events s; currentDataLength := currentDataLength s |}).

Definition setFromDate (v : string) : M unit :=
  modify_app (fun s =>
    {| isSearching := isSearching s; npub := npub s;
       includeNotesFromFollowedUsers := includeNotesFromFollowedUsers s;
       query := query s; fromDate := v; toDate := toDate s;
       events := events s; currentDataLength := currentDataLength s |}).

Definition setToDate (v : string) : M unit :=
  modify_app (fun s =>
    {| isSearching := isSearching s; npub := npub s;
       includeNotesFromFollowedUsers := includeNotesFromFollowedUsers s;
       query := query s; fromDate := fromDate s; toDate := v;
       events := events s; currentDataLength := currentDataLength s |}).

Definition setEvents (evs : list Event) : M unit :=
  modify_app (fun s =>
    {| isSearching := isSearching s; npub := npub s;
       includeNotesFromFollowedUsers := includeNotesFromFollowedUsers s;
       query := query s; fromDate := fromDate s; toDate := toDate s;
       events := evs; currentDataLength := currentDataLength s |}).

(** The setter of the cursor takes the new value or an updater of the
    previous one; both are [currentDataLength := f prev]. *)
Definition setCurrentDataLength (f : nat -> nat) : M unit :=
  modify_app (fun s =>
    {| isSearching := isSearching s; npub := npub s;
       includeNotesFromFollowedUsers := includeNotesFromFollowedUsers s;
       query := query s; fromDate := fromDate s; toDate := toDate s;
       events := events s; currentDataLength := f (currentDataLength s) |}).

(** A string is truthy when it is not empty. *)
Definition truthy (s : string) : bool := negb (URLSearchParams.is_empty s).

(** ** The initial state, read from the query string (lines 33-44) *)

Definition initialState (D : TextDecoder) (loc : Location) : AppState :=
  let queryParams := URLSearchParams.new D (search_string loc) in
  let or_empty (o : option string) := match o with Some v => v | None => "" end in
  {| isSearching := false;
     npub := or_empty (URLSearchParams.get "npub" queryParams);
     includeNotesFromFollowedUsers :=
       match URLSearchParams.get INCLUDE_FOLLOWED_USERS_QUERY_PARAM queryParams with
       | Some v => String.eqb v "1"
       | None => false
       end;
     query := or_empty (URLSearchParams.get "query" queryParams);
     fromDate := or_empty (URLSearchParams.get "fromDate" queryParams);
     toDate := or_empty (URLSearchParams.get "toDate" queryParams);
     events := [];
     currentDataLength := 0 |}.

(** ** decodeNpub (lines 46-61) *)

Definition decodeNpub (env : Env) (npub : string) : M (option string) :=
  match nip19_decode env npub with
  | Returns r =>
    if String.eqb (type r) "npub" then ret (Some (data r)) else ret None
  | Throws (ErrorInstance message) =>
    toast {| title := message; status := "error" |} ;;
    ret None
  | Throws (OtherValue _) => ret None
  end.

(** ** convertDateToUnixTimestamp (lines 62-63) *)

Definition convertDateToUnixTimestamp (env : Env) (date : string) : number :=
  JSDate.div1000 (JSDate.getTime (Date_parse_other env) date).

(** ** handleSubmit (lines 64-130) *)

(** The second element of each tag: [tags.map(([_, pubkey]) => pubkey)].
    Destructuring an array with no second element binds [undefined]. *)
Definition followed_of_tags (tags : list (list string)) : list (option string) :=
  map (fun tag => nth_error tag 1) tags.

Definition contact_filter (decodedNpub : string) : Filter :=
  {| kinds := [3%Z]; authors := [Some decodedNpub];
     search := None; since := None; until := None |}.

Definition note_filter (env : Env) (form : AppState)
    (followedAuthorPubkeys : list (option string)) (decodedNpub : string) : Filter :=
  {| kinds := [1%Z];
     authors := if includeNotesFromFollowedUsers form
                then followedAuthorPubkeys ++ [Some decodedNpub]
                else [Some decodedNpub];
     search := if truthy (query form) && (0 <? String.length (query form))%nat
               then Some (query form) else None;
     since := if truthy (fromDate form)
              then Some (convertDateToUnixTimestamp env (fromDate form)) else None;
     until := if truthy (toDate form)
              then Some (convertDateToUnixTimestamp env (toDate form)) else None |}.

(** The listener of the [connect] event (lines 84-122).  [form] is the state
    the handler closed over when the form was submitted. *)
Definition onConnect (env : Env) (form : AppState) (decodedNpub : string) : M unit :=
  console_log ("connected to " ++ RELAY_URL) ;;
  followedAuthorPubkeys <-
    (if includeNotesFromFollowedUsers form then
       request (RelayGet (contact_filter decodedNpub)) ;;
       ret (match relay_get env (contact_filter decodedNpub) with
            | Some contactListEvent => followed_of_tags (tags contactListEvent)
            | None => []
            end)
     else ret []) ;;
  request (RelayList [note_filter env form followedAuthorPubkeys decodedNpub]) ;;
  let events := relay_list env [note_filter env form followedAuthorPubkeys decodedNpub] in
  (if (List.length events =? 0)%nat
   then toast {| title := "no events found"; status := "info" |}
   else ret tt) ;;
  setCurrentDataLength (fun _ => Nat.min 5 (List.length events)) ;;
  setEvents events ;;
  setIsSearching false ;;
  request RelayClose.

(** The listener of the [error] event (lines 124-127). *)
Definition onError : M unit :=
  console_log ("failed to connect to " ++ RELAY_URL) ;;
  setIsSearching false.

(** [e.preventDefault()] acts on the event alone and is left out.  [form] is
    the state of the render the handler belongs to. *)
Definition handleSubmit (env : Env) : M unit :=
  form <- read_app ;;
  if negb (truthy (npub form)) then
    toast {| title := "npub is required"; status := "warning" |}
  else
    decodedNpub <- decodeNpub env (npub form) ;;
    match decodedNpub with
    | None => ret tt
    | Some key =>
      if negb (truthy key) then ret tt
      else
        setIsSearching true ;;
        request (RelayInit RELAY_URL) ;;
        request RelayConnect ;;
        match relay_connect env with
        | Connected => onConnect env form key
        | Failed => onError
        | Pending => ret tt
        end
    end.

(** ** history.replaceState (HTML Standard, URL Standard) *)

(** [history.replaceState(null, "", url)] parses [url] against the address of
    the document and throws a SecurityError unless the result is on the
    origin of the document.  The component passes [pathname + "?" + query],
    and [pathname], of a page served over http or https, begins with a slash
    and holds no [?] and no [#].  With one slash the reference is a path on
    the same host: the call succeeds and the path stays.  With two it is
    scheme-relative: what follows the slashes is read as a host.  An [Origin]
    tells how that ends, for a path that begins with two slashes: [None]
    where the host is missing, malformed or not the document's own, and the
    call throws; [Some path'] where it is the document's own, [path'] being
    the path the parsed URL is left with. *)
Definition Origin : Type := string -> option string.

Definition scheme_relative (path : string) : bool :=
  match path with
  | String "/" (String "/" _) => true
  | _ => false
  end.

(** The address after the call, or [None] where it throws.
    [location.search] is the empty string for an empty query. *)
Definition replaceState (O : Origin) (path query : string) : option Location :=
  let search := if truthy query then String "?" query else "" in
  if scheme_relative path then
    match O path with
    | Some path' => Some {| pathname := path'; search_string := search |}
    | None => None
    end
  else Some {| pathname := path; search_string := search |}.

(** How a call ends. *)
Inductive Completion : Type :=
| Returned
| Threw.

(** ** The query string follows the form (lines 139-175) *)

Definition updateUrl (O : Origin) (queryParams : URLSearchParams.t) : M Completion :=
  loc <- read_location ;;
  match replaceState O (pathname loc) (URLSearchParams.toString queryParams) with
  | Some loc' => set_location loc' ;; ret Returned
  | None => ret Threw
  end.

(** [updateUrl] comes before [set(e.target.value)]: where it throws, the
    state keeps its value as well. *)
Definition makeOnChangeHandler (D : TextDecoder) (O : Origin) (set : string -> M unit)
    (key : string) (value : string) : M Completion :=
  loc <- read_location ;;
  let queryParams := URLSearchParams.new D (search_string loc) in
  c <- updateUrl O (if truthy value
                    then URLSearchParams.set (USVString key) (USVString value) queryParams
                    else URLSearchParams.delete (USVString key) queryParams) ;;
  match c with
  | Returned => set value ;; ret Returned
  | Threw => ret Threw
  end.

(** The key and ["1"] are ASCII, which the conversion to a USVString leaves
    as it is. *)
Definition updateIncludeFollowedQueryParam (D : TextDecoder) (O : Origin)
    (includeFollowed : bool) : M Completion :=
  loc <- read_location ;;
  let queryParams := URLSearchParams.new D (search_string loc) in
  updateUrl O (if includeFollowed
               then URLSearchParams.set INCLUDE_FOLLOWED_USERS_QUERY_PARAM "1" queryParams
               else URLSearchParams.delete INCLUDE_FOLLOWED_USERS_QUERY_PARAM queryParams).

(** The change handler of the checkbox (lines 192-197).  The address is
    rewritten inside the updater of the state: where that throws the updater
    gives no new state and the flag keeps its value.  (The error then
    reaches React, which may take the component down; the model stops at the
    handler and keeps the page as it was.) *)
Definition onIncludeFollowedChange (D : TextDecoder) (O : Origin) : M Completion :=
  s <- read_app ;;
  let prev := includeNotesFromFollowedUsers s in
  c <- updateIncludeFollowedQueryParam D O (negb prev) ;;
  match c with
  | Returned => setIncludeNotesFromFollowedUsers (negb prev) ;; ret Returned
  | Threw => ret Threw
  end.

Definition updateCurrentDataLength : M unit :=
  s <- read_app ;;
  setCurrentDataLength (fun prev =>
    if (prev + 5 <? List.length (events s))%nat then prev + 5 else List.length (events s)).

(** The text inputs of the form, each with its setter and its key
    (lines 185, 204, 214, 224). *)
Inductive Field : Type :=
| FieldNpub
| FieldQuery
| FieldFromDate
| FieldToDate.

Definition field_key (f : Field) : string :=
  match f with
  | FieldNpub => "npub"
  | FieldQuery => "query"
  | FieldFromDate => "fromDate"
  | FieldToDate => "toDate"
  end.

Definition field_setter (f : Field) : string -> M unit :=
  match f with
  | FieldNpub => setNpub
  | FieldQuery => setQuery
  | FieldFromDate => setFromDate
  | FieldToDate => setToDate
  end.

Definition field_value (f : Field) (s : AppState) : string :=
  match f with
  | FieldNpub => npub s
  | FieldQuery => query s
  | FieldFromDate => fromDate s
  | FieldToDate => toDate s
  end.

Definition onFieldChange (D : TextDecoder) (O : Origin) (f : Field) (value : string) :
    M Completion :=
  makeOnChangeHandler D O (field_setter f) (field_key f) value.

(** What the list shows: [events.slice(0, currentDataLength)] and the
    [hasMore] property of the scroller. *)
Definition visible (s : AppState) : list Event :=
  firstn (currentDataLength s) (events s).

Definition hasMore (s : AppState) : bool :=
  (currentDataLength s <? List.length (events s))%nat.

(* ===================================================================== *)
(** * What the statements observe *)
(* ===================================================================== *)

Definition cursor (w : World) : nat := currentDataLength (app w).

Definition results (w : World) : list Event := events (app w).

(** [k] calls of [updateCurrentDataLength] in a row. *)
Definition reveal (k : nat) (w : World) : World :=
  Nat.iter k (exec updateCurrentDataLength) w.

(** The requests and the messages a handler adds to those of [w]. *)
Definition issued (m : M unit) (w : World) : list NetAction :=
  skipn (List.length (network w)) (network (exec m w)).

Definition new_toasts (m : M unit) (w : World) : list Toast :=
  skipn (List.length (toasts w)) (toasts (exec m w)).

Definition with_toast (w : World) (t : Toast) : World :=
  {| app := app w; location := location w; toasts := toasts w ++ [t];
     console := console w; network := network w |}.

(** The keys taken from the contact list the relay answers with. *)
Definition contacts_of (env : Env) (key : string) : list (option string) :=
  match relay_get env (contact_filter key) with
  | Some contactListEvent => followed_of_tags (tags contactListEvent)
  | None => []
  end.

(** The filter of the note query of a submission, and the notes the relay
    answers with. *)
Definition submitted_filter (env : Env) (form : AppState) (key : string) : Filter :=
  note_filter env form
    (if includeNotesFromFollowedUsers form then contacts_of env key else []) key.

Definition fetched (env : Env) (form : AppState) (key : string) : list Event :=
  relay_list env [submitted_filter env form key].

(** The world once the submit handler has started the session, and the
    requests of a whole session. *)
Definition connecting (w : World) : World :=
  exec (setIsSearching true ;; request (RelayInit RELAY_URL) ;; request RelayConnect) w.

Definition session (env : Env) (form : AppState) (key : string) : list NetAction :=
  [RelayInit RELAY_URL; RelayConnect]
  ++ match relay_connect env with
     | Connected =>
       (if includeNotesFromFollowedUsers form then [RelayGet (contact_filter key)] else [])
       ++ [RelayList [submitted_filter env form key]; RelayClose]
     | _ => []
     end.

(** [replaceState] throws at this path, whatever the query: the path begins
    with two slashes and what follows them is not the host of the
    document. *)
Definition refused (O : Origin) (path : string) : bool :=
  (scheme_relative path && match O path with Some _ => false | None => true end)%bool.

(** The path a call of [replaceState] that returns leaves. *)
Definition path_after (O : Origin) (path : string) : string :=
  if scheme_relative path
  then match O path with Some path' => path' | None => path end
  else path.

(** [nip19.decode] throws instances of [Error] and nothing else, as that of
    nostr-tools does. *)
Definition throws_errors_only (env : Env) : Prop :=
  forall s v, nip19_decode env s <> Throws (OtherValue v).

(** [location.search] after a call of [updateUrl queryParams] that
    returns. *)
Definition search_of (queryParams : URLSearchParams.t) : string :=
  if truthy (URLSearchParams.toString queryParams)
  then String "?" (URLSearchParams.toString queryParams) else "".

(** Parsing a serialized tuple decodes its name and its value. *)
Definition decode_tuple (D : TextDecoder) (p : string * string) : string * string :=
  (D (fst p), D (snd p)).

(** Every name of the list is decoded text. *)
Definition names_decoded (D : TextDecoder) (l : URLSearchParams.t) : Prop :=
  Forall (fun p => D (fst p) = fst p) l.

(* ===================================================================== *)
(** * A sample session *)
(* ===================================================================== *)

(** A decoder of identifiers with one key, one note identifier, one input on
    which it throws a plain string, and an [Error] for everything else. *)
Definition sample_decode (s : string) : DecodeOutcome :=
  if String.eqb s "npub1alice" then Returns {| type := "npub"; data := "a11ce" |}
  else if String.eqb s "note1hello" then Returns {| type := "note"; data := "4e07e" |}
  else if String.eqb s "npub1thrown" then Throws (OtherValue "checksum")
  else Throws (ErrorInstance "Unknown letter").

Definition note (n : Z) : Event :=
  {| id := "e"; pubkey := "a11ce"; created_at := 1672531200 + n; kind := 1;
     tags := []; content := "gm" |}.

(** A contact list that follows bob, holds one tag with no key, and follows
    its own author. *)
Definition contact_list : Event :=
  {| id := "c"; pubkey := "a11ce"; created_at := 1672531200; kind := 3;
     tags := [["p"; "b0b"]; ["p"]; ["p"; "a11ce"]]; content := "" |}.

Definition sample_env (c : Connection) : Env :=
  {| nip19_decode := sample_decode;
     Date_parse_other := fun _ => None;
     relay_connect := c;
     relay_get := fun _ => Some contact_list;
     relay_list := fun _ => map note [1; 2; 3; 4; 5; 6; 7; 8; 9; 10; 11; 12]%Z |}.

Definition sample_form (identifier : string) (followed : bool) : AppState :=
  {| isSearching := false; npub := identifier;
     includeNotesFromFollowedUsers := followed;
     query := ""; fromDate := "2023-01-01"; toDate := "";
     events := [note 0]; currentDataLength := 1 |}.

Definition sample_world (identifier : string) (followed : bool) : World :=
  {| app := sample_form identifier followed;
     location := {| pathname := "/"; search_string := "?query=gm&npub=npub1bob&query=old" |};
     toasts := []; console := []; network := [] |}.

(** The decoder of nostr-tools throws an [Error] on whatever it cannot
    read. *)
Definition strict_env (c : Connection) : Env :=
  {| nip19_decode := fun s =>
       match sample_decode s with
       | Throws _ => Throws (ErrorInstance "Unknown letter")
       | r => r
       end;
     Date_parse_other := fun _ => None;
     relay_connect := c;
     relay_get := fun _ => Some contact_list;
     relay_list := fun _ => map note [1; 2; 3; 4; 5; 6; 7; 8; 9; 10; 11; 12]%Z |}.

(** The document of the samples is on a host that none of their paths
    names: a reference that begins with two slashes leaves its origin, and
    [replaceState] throws. *)
Definition other_origin : Origin := fun _ => None.

(** The page [https://host//search?query=gm], as loaded. *)
Definition doubled_slash : World :=
  {| app := {| isSearching := false; npub := "";
               includeNotesFromFollowedUsers := false;
               query := "gm"; fromDate := ""; toDate := "";
               events := []; currentDataLength := 0 |};
     location := {| pathname := "//search"; search_string := "?query=gm" |};
     toasts := []; console := []; network := [] |}.

(** The one-unit string "\uD800". *)
Definition lone_surrogate : string :=
  String (ascii_of_N 237) (String (ascii_of_N 160) (String (ascii_of_N 128) "")).

Definition alice_filter : Filter :=
  submitted_filter (sample_env Connected) (sample_form "npub1alice" true) "a11ce".

(* ===================================================================== *)
(** * The page over time *)
(* ===================================================================== *)

(** The page as it is once loaded at an address (lines 33-44): the form is
    read from the query string, nothing is shown, nothing was asked. *)
Definition load (D : TextDecoder) (loc : Location) : World :=
  {| app := initialState D loc; location := loc;
     toasts := []; console := []; network := [] |}.

(** What can happen to the page.  A submission runs up to the end of its
    connection; [ConnectFires] and [ErrorFires] are the listeners of an
    earlier submission, still pending, firing later on: with the state that
    submission closed over and the key it had decoded. *)
Inductive Action : Type :=
| Submit (env : Env)
| ConnectFires (env : Env) (form : AppState) (decodedNpub : string)
| ErrorFires
| ScrollNext
| ChangeField (f : Field) (value : string)
| ToggleFollowed.

Definition perform (D : TextDecoder) (O : Origin) (a : Action) : World -> World :=
  match a with
  | Submit env => exec (handleSubmit env)
  | ConnectFires env form decodedNpub => exec (onConnect env form decodedNpub)
  | ErrorFires => exec onError
  | ScrollNext => exec updateCurrentDataLength
  | ChangeField f value => exec (onFieldChange D O f value)
  | ToggleFollowed => exec (onIncludeFollowedChange D O)
  end.

Definition run (D : TextDecoder) (O : Origin) (actions : list Action) (w : World) : World :=
  fold_left (fun w a => perform D O a w) actions w.


(** The form of [s] is the form of [s']: the five values a submission
    reads. *)
Definition same_form (s s' : AppState) : Prop :=
  (forall f, field_value f s = field_value f s')
  /\ includeNotesFromFollowedUsers s = includeNotesFromFollowedUsers s'.

(** Every name and every value of the list is decoded text. *)
Definition decoded (D : TextDecoder) (l : URLSearchParams.t) : Prop :=
  Forall (fun p => D (fst p) = fst p /\ D (snd p) = snd p) l.

(** How many tuples of the list have the name. *)
Definition occurrences (name : string) (l : URLSearchParams.t) : nat :=
  List.length (filter (fun p => String.eqb (fst p) name) l).

(** The query string of the address, parsed. *)
Definition address_params (D : TextDecoder) (w : World) : URLSearchParams.t :=
  URLSearchParams.new D (search_string (location w)).


(** The cursor is within the results, and is a multiple of five unless
    everything is shown. *)
Definition cursor_ok (w : World) : Prop :=
  (cursor w <= List.length (results w))%nat
  /\ (cursor w = List.length (results w) \/ Nat.modulo (cursor w) 5 = 0%nat).

(** A second relay: it knows no contact list and no note. *)
Definition silent_env : Env :=
  {| nip19_decode := sample_decode;
     Date_parse_other := fun _ => None;
     relay_connect := Connected;
     relay_get := fun _ => None;
     relay_list := fun _ => [] |}.

(** A decoder that answers with an empty key. *)
Definition empty_key_env : Env :=
  {| nip19_decode := fun _ => Returns {| type := "npub"; data := "" |};
     Date_parse_other := fun _ => None;
     relay_connect := Connected;
     relay_get := fun _ => None;
     relay_list := fun _ => [] |}.

Definition bookmarked : Location :=
  {| pathname := "/search";
     search_string := "?utm=x&npub=npub1alice&fromDate=soon&query=gm&query=old" |}.


(* ===================================================================== *)
(** * The calendar day of a time value *)
(* ===================================================================== *)

Module JSCalendar.

Import JSDate.
Local Open Scope Z_scope.

(** ECMAScript, "Day Number and Time within Day": [Day(t)]. *)
Definition Day (t : Z) : Z := t / msPerDay.

(** Counting up from [y] while the next year starts on or before [day]. *)
Fixpoint year_search (fuel : nat) (day y : Z) : Z :=
  match fuel with
  | O => y
  | S fuel' =>
    if DayFromYear (y + 1) <=? day then year_search fuel' day (y + 1) else y
  end.

(** [YearFromTime], on day numbers: the largest [y] with
    [DayFromYear y <= day].  The count starts at a year that is not after
    it (a year has 366 days at most, 365 at least) and needs one step for
    each leap day in between. *)
Definition YearFromDay (day : Z) : Z :=
  year_search (Z.to_nat (Z.abs day / 100000 + 2)) day
    (if 0 <=? day then 1970 + day / 366 else 1970 + day / 365).

Definition DayWithinYear (day : Z) : Z := day - DayFromYear (YearFromDay day).

(** [MonthFromTime], on day numbers; 0 is January. *)
Definition MonthFromDay (day : Z) : Z :=
  let n := DayWithinYear day in
  let leap := if InLeapYear (YearFromDay day) then 1 else 0 in
  if n <? 31 then 0
  else if n <? 59 + leap then 1
  else if n <? 90 + leap then 2
  else if n <? 120 + leap then 3
  else if n <? 151 + leap then 4
  else if n <? 181 + leap then 5
  else if n <? 212 + leap then 6
  else if n <? 243 + leap then 7
  else if n <? 273 + leap then 8
  else if n <? 304 + leap then 9
  else if n <? 334 + leap then 10
  else 11.

(** [DateFromTime], on day numbers: the day of the month, from 1. *)
Definition DateFromDay (day : Z) : Z :=
  let n := DayWithinYear day in
  let leap := if InLeapYear (YearFromDay day) then 1 else 0 in
  let month := MonthFromDay day in
  if month =? 0 then n + 1
  else if month =? 1 then n - 30
  else if month =? 2 then n - 58 - leap
  else if month =? 3 then n - 89 - leap
  else if month =? 4 then n - 119 - leap
  else if month =? 5 then n - 150 - leap
  else if month =? 6 then n - 180 - leap
  else if month =? 7 then n - 211 - leap
  else if month =? 8 then n - 242 - leap
  else if month =? 9 then n - 272 - leap
  else if month =? 10 then n - 303 - leap
  else n - 333 - leap.

(** [TimeClip]: a time value is within 8.64e15 milliseconds of the epoch. *)
Definition TimeClip (t : Z) : option Z :=
  if Z.abs t <=? 8640000000000000 then Some t else None.

End JSCalendar.

(* ===================================================================== *)
(** * The list of notes on the page *)
(* ===================================================================== *)

(** What the page takes from the browser to show a note: the offset of
    local time from UTC at a time value, in milliseconds ([LocalTZA]), and
    what [toLocaleString(navigator.language, {month: "short"})] gives for a
    time value. *)
Record Locale : Type := {
  LocalTZA : Z -> Z;
  month_short : Z -> string
}.

(** A day of the month in decimal: one or two digits. *)
Definition ToString_day (d : Z) : string :=
  if (d <? 10)%Z then String (JSDate.digit_char d) ""
  else String (JSDate.digit_char (d / 10)) (String (JSDate.digit_char (d mod 10)) "").

(** ** formatCreateAtDate (lines 131-138) *)

(** An invalid date gives ["Invalid Date"] for the month and [NaN] for the
    day. *)
Definition formatCreateAtDate (L : Locale) (unixTimestamp : Z) : string :=
  match JSCalendar.TimeClip (unixTimestamp * 1000) with
  | None => "Invalid Date" ++ " " ++ "NaN"
  | Some t =>
    let monthName := month_short L t in
    let day := JSCalendar.DateFromDay (JSCalendar.Day (t + LocalTZA L t)) in
    monthName ++ " " ++ ToString_day day
  end.

(** ** The cards (lines 247-284) *)

(** A card of the list: its React key, the date shown, the content handed
    to [NoteContent], the target of the Open link and the text the Copy ID
    button copies. *)
Record Card : Type := {
  card_key : string;
  card_date : string;
  card_content : string;
  card_href : string;
  card_copies : string
}.

Definition card (L : Locale) (noteEncode : string -> string) (e : Event) : Card :=
  let noteId := noteEncode (id e) in
  {| card_key := id e;
     card_date := formatCreateAtDate L (created_at e);
     card_content := content e;
     card_href := "nostr:" ++ noteId;
     card_copies := noteId |}.

Definition cards (L : Locale) (noteEncode : string -> string) (s : AppState) : list Card :=
  map (card L noteEncode) (firstn (currentDataLength s) (events s)).

(** A browser on UTC, and one five hours behind, with English months. *)
Definition english_month (t : Z) : string :=
  match JSCalendar.MonthFromDay (JSCalendar.Day t) with
  | 0%Z => "Jan" | 1%Z => "Feb" | 2%Z => "Mar" | 3%Z => "Apr"
  | 4%Z => "May" | 5%Z => "Jun" | 6%Z => "Jul" | 7%Z => "Aug"
  | 8%Z => "Sep" | 9%Z => "Oct" | 10%Z => "Nov" | _ => "Dec"
  end.

Definition utc_english : Locale :=
  {| LocalTZA := fun _ => 0%Z; month_short := english_month |}.

Definition new_york_english : Locale :=
  {| LocalTZA := fun _ => (-18000000)%Z;
     month_short := fun t => english_month (t - 18000000) |}.

Ltac each_month m :=
  destruct m as [|p|p]; try lia;
  do 4 (try destruct p as [p|p|]; try lia).

(* ===================================================================== *)
(** * Tactics *)
(* ===================================================================== *)

Ltac each_byte c := destruct c as [[] [] [] [] [] [] [] []].

Ltac div_lia := Z.div_mod_to_equations; lia.

(** Membership in a list written out. *)
Ltac in_literal H :=
  simpl in H; repeat (destruct H as [H|H]; try discriminate H); try contradiction.

(* ===================================================================== *)
(** * The text decoder is lawful *)
(* ===================================================================== *)

Module UTF8Facts.
Import UTF8.

Lemma sanitize_ascii (s : string) : is_ascii s = true -> sanitize s = s.
Proof.
  induction s as [|c r IH]; [reflexivity|].
  simpl is_ascii. intros H. apply andb_prop in H. destruct H as [Hc Hr].
  assert (E : classify c = Single).
  { unfold classify. apply N.ltb_lt in Hc.
    destruct (N.leb_spec (N_of_ascii c) 127) as [_|Hgt]; [reflexivity|lia]. }
  simpl sanitize. rewrite E. now rewrite (IH Hr).
Qed.

Lemma sanitize_replacement (s : string) :
  sanitize (replacement s) = replacement (sanitize s).
Proof. reflexivity. Qed.

(** One unfolding of the decoder. *)
Lemma sanitize_step (b : ascii) (r : string) :
  sanitize (String b r) =
  match classify b with
  | Single => String b (sanitize r)
  | Invalid => replacement (sanitize r)
  | Needs n lo hi =>
    match r with
    | EmptyString => replacement EmptyString
    | String c1 r1 =>
      if negb (byte_in lo hi c1) then replacement (sanitize r)
      else
        match n with
        | 1%nat => String b (String c1 (sanitize r1))
        | _ =>
          match r1 with
          | EmptyString => replacement EmptyString
          | String c2 r2 =>
            if negb (byte_in 128 191 c2) then replacement (sanitize r1)
            else
              match n with
              | 2%nat => String b (String c1 (String c2 (sanitize r2)))
              | _ =>
                match r2 with
                | EmptyString => replacement EmptyString
                | String c3 r3 =>
                  if negb (byte_in 128 191 c3) then replacement (sanitize r2)
                  else String b (String c1 (String c2 (String c3 (sanitize r3))))
                end
              end
          end
        end
    end
  end.
Proof. reflexivity. Qed.

(** Decoded text decodes to itself: by induction on a bound of the length,
    since the decoder resumes one to four bytes further on. *)
Lemma sanitize_idem_bounded (n : nat) :
  forall s, (String.length s <= n)%nat -> sanitize (sanitize s) = sanitize s.
Proof.
  induction n as [|n IH]; intros s Hlen.
  - destruct s; [reflexivity|simpl in Hlen; lia].
  - destruct s as [|b r]; [reflexivity|]. simpl in Hlen.
    assert (Hr : sanitize (sanitize r) = sanitize r) by (apply IH; lia).
    rewrite (sanitize_step b r).
    destruct (classify b) as [|k lo hi|] eqn:Eb.
    + rewrite sanitize_step, Eb. now rewrite Hr.
    + destruct r as [|c1 r1]; [reflexivity|]. simpl in Hlen.
      assert (Hr1 : sanitize (sanitize r1) = sanitize r1) by (apply IH; lia).
      destruct (byte_in lo hi c1) eqn:E1; cbn [negb];
        [|now rewrite sanitize_replacement, Hr].
      destruct k as [|[|k]].
      * destruct r1 as [|c2 r2]; [reflexivity|]. simpl in Hlen.
        assert (Hr2 : sanitize (sanitize r2) = sanitize r2) by (apply IH; lia).
        destruct (byte_in 128 191 c2) eqn:E2; cbn [negb];
          [|now rewrite sanitize_replacement, Hr1].
        destruct r2 as [|c3 r3]; [reflexivity|]. simpl in Hlen.
        assert (Hr3 : sanitize (sanitize r3) = sanitize r3) by (apply IH; lia).
        destruct (byte_in 128 191 c3) eqn:E3; cbn [negb];
          [|now rewrite sanitize_replacement, Hr2].
        rewrite sanitize_step, Eb, E1, E2, E3. cbn [negb]. now rewrite Hr3.
      * rewrite sanitize_step, Eb, E1. cbn [negb]. now rewrite Hr1.
      * destruct r1 as [|c2 r2]; [reflexivity|]. simpl in Hlen.
        assert (Hr2 : sanitize (sanitize r2) = sanitize r2) by (apply IH; lia).
        destruct (byte_in 128 191 c2) eqn:E2; cbn [negb];
          [|now rewrite sanitize_replacement, Hr1].
        destruct k as [|k].
        -- rewrite sanitize_step, Eb, E1, E2. cbn [negb]. now rewrite Hr2.
        -- destruct r2 as [|c3 r3]; [reflexivity|]. simpl in Hlen.
           assert (Hr3 : sanitize (sanitize r3) = sanitize r3) by (apply IH; lia).
           destruct (byte_in 128 191 c3) eqn:E3; cbn [negb];
             [|now rewrite sanitize_replacement, Hr2].
           rewrite sanitize_step, Eb, E1, E2, E3. cbn [negb]. now rewrite Hr3.
    + now rewrite sanitize_replacement, Hr.
Qed.

(** ** Decoded text holds no surrogate *)

Lemma USVString_step (b : ascii) (r : string) :
  USVString (String b r) =
  if N.eqb (N_of_ascii b) 237 then
    match r with
    | String c1 (String c2 r2) =>
      if (byte_in 160 191 c1 && byte_in 128 191 c2)%bool
      then replacement (USVString r2)
      else String b (USVString r)
    | _ => String b (USVString r)
    end
  else String b (USVString r).
Proof. reflexivity. Qed.

Lemma USVString_replacement (s : string) :
  USVString (replacement s) = replacement (USVString s).
Proof. reflexivity. Qed.

Lemma USVString_copy (b : ascii) (r : string) :
  N.eqb (N_of_ascii b) 237 = false -> USVString (String b r) = String b (USVString r).
Proof. intros H. now rewrite USVString_step, H. Qed.

Lemma USVString_low (b c1 : ascii) (r : string) :
  byte_in 160 191 c1 = false ->
  USVString (String b (String c1 r)) = String b (USVString (String c1 r)).
Proof.
  intros H. rewrite (USVString_step b).
  destruct (N.eqb (N_of_ascii b) 237); [|reflexivity].
  destruct r as [|c2 r2]; [reflexivity|]. now rewrite H.
Qed.

Lemma USVString_ascii (s : string) : is_ascii s = true -> USVString s = s.
Proof.
  induction s as [|c r IH]; [reflexivity|].
  simpl is_ascii. intros H. apply andb_prop in H. destruct H as [Hc Hr].
  apply N.ltb_lt in Hc. rewrite USVString_copy; [now rewrite (IH Hr)|].
  apply N.eqb_neq. lia.
Qed.

Lemma classify_Single (b : ascii) :
  classify b = Single -> N.eqb (N_of_ascii b) 237 = false.
Proof.
  unfold classify. destruct (N.leb_spec (N_of_ascii b) 127) as [Hle|Hgt].
  - intros _. apply N.eqb_neq. lia.
  - destruct (byte_in 194 223 b); [discriminate|].
    destruct (N.eqb (N_of_ascii b) 224); [discriminate|].
    destruct (N.eqb (N_of_ascii b) 237); [discriminate|].
    destruct (byte_in 225 239 b); [discriminate|].
    destruct (N.eqb (N_of_ascii b) 240); [discriminate|].
    destruct (N.eqb (N_of_ascii b) 244); [discriminate|].
    destruct (byte_in 241 243 b); discriminate.
Qed.

(** The first continuation byte is below C0, and below A0 after ED. *)
Lemma classify_Needs (b : ascii) (k : nat) (lo hi : N) :
  classify b = Needs k lo hi ->
  (hi <= 191)%N /\ (N.eqb (N_of_ascii b) 237 = true -> hi = 159%N).
Proof.
  unfold classify. destruct (N.leb (N_of_ascii b) 127); [discriminate|].
  destruct (byte_in 194 223 b) eqn:E1.
  { intros [= <- <- <-]. split; [lia|]. intros E. apply N.eqb_eq in E.
    unfold byte_in in E1. rewrite E in E1. discriminate E1. }
  destruct (N.eqb (N_of_ascii b) 224) eqn:E2.
  { intros [= <- <- <-]. split; [lia|]. intros E. apply N.eqb_eq in E.
    apply N.eqb_eq in E2. rewrite E in E2. discriminate E2. }
  destruct (N.eqb (N_of_ascii b) 237) eqn:E3.
  { intros [= <- <- <-]. split; [lia|reflexivity]. }
  destruct (byte_in 225 239 b); [intros [= <- <- <-]; split; [lia|discriminate]|].
  destruct (N.eqb (N_of_ascii b) 240); [intros [= <- <- <-]; split; [lia|discriminate]|].
  destruct (N.eqb (N_of_ascii b) 244); [intros [= <- <- <-]; split; [lia|discriminate]|].
  destruct (byte_in 241 243 b); [intros [= <- <- <-]; split; [lia|discriminate]|].
  discriminate.
Qed.

Lemma continuation_copied (lo hi : N) (c : ascii) (r : string) :
  (hi <= 191)%N -> byte_in lo hi c = true ->
  USVString (String c r) = String c (USVString r).
Proof.
  intros Hhi Hc. apply USVString_copy. apply N.eqb_neq.
  unfold byte_in in Hc. apply andb_prop in Hc. destruct Hc as [_ Hc].
  apply N.leb_le in Hc. lia.
Qed.

(** A lead byte and the continuation byte it allows are no surrogate. *)
Lemma lead_copied (b c1 : ascii) (k : nat) (lo hi : N) (r : string) :
  classify b = Needs k lo hi -> byte_in lo hi c1 = true ->
  USVString (String b (String c1 r)) = String b (String c1 (USVString r)).
Proof.
  intros Eb E1. destruct (@classify_Needs b k lo hi Eb) as [Hhi HED].
  rewrite <- (@continuation_copied lo hi c1 r Hhi E1).
  destruct (N.eqb (N_of_ascii b) 237) eqn:E.
  - apply USVString_low. rewrite (HED eq_refl) in E1.
    unfold byte_in in *. apply andb_prop in E1. destruct E1 as [_ E1].
    apply N.leb_le in E1. apply andb_false_iff. left. apply N.leb_gt. lia.
  - now apply USVString_copy.
Qed.

Lemma USVString_sanitize_bounded (n : nat) :
  forall s, (String.length s <= n)%nat -> USVString (sanitize s) = sanitize s.
Proof.
  assert (H191 : (191 <= 191)%N) by lia.
  induction n as [|n IH]; intros s Hlen.
  - destruct s; [reflexivity|simpl in Hlen; lia].
  - destruct s as [|b r]; [reflexivity|]. simpl in Hlen.
    assert (Hr : USVString (sanitize r) = sanitize r) by (apply IH; lia).
    rewrite (sanitize_step b r).
    destruct (classify b) as [|k lo hi|] eqn:Eb.
    + rewrite USVString_copy by now apply classify_Single. now rewrite Hr.
    + destruct r as [|c1 r1]; [reflexivity|]. simpl in Hlen.
      assert (Hr1 : USVString (sanitize r1) = sanitize r1) by (apply IH; lia).
      destruct (byte_in lo hi c1) eqn:E1; cbn [negb];
        [|now rewrite USVString_replacement, Hr].
      destruct k as [|[|k]].
      * destruct r1 as [|c2 r2]; [reflexivity|]. simpl in Hlen.
        assert (Hr2 : USVString (sanitize r2) = sanitize r2) by (apply IH; lia).
        destruct (byte_in 128 191 c2) eqn:E2; cbn [negb];
          [|now rewrite USVString_replacement, Hr1].
        destruct r2 as [|c3 r3]; [reflexivity|]. simpl in Hlen.
        assert (Hr3 : USVString (sanitize r3) = sanitize r3) by (apply IH; lia).
        destruct (byte_in 128 191 c3) eqn:E3; cbn [negb];
          [|now rewrite USVString_replacement, Hr2].
        rewrite (@lead_copied b c1 _ _ _ _ Eb E1), (@continuation_copied 128 191 c2 _ H191 E2),
          (@continuation_copied 128 191 c3 _ H191 E3). now rewrite Hr3.
      * rewrite (@lead_copied b c1 _ _ _ _ Eb E1). now rewrite Hr1.
      * destruct r1 as [|c2 r2]; [reflexivity|]. simpl in Hlen.
        assert (Hr2 : USVString (sanitize r2) = sanitize r2) by (apply IH; lia).
        destruct (byte_in 128 191 c2) eqn:E2; cbn [negb];
          [|now rewrite USVString_replacement, Hr1].
        destruct k as [|k].
        -- rewrite (@lead_copied b c1 _ _ _ _ Eb E1), (@continuation_copied 128 191 c2 _ H191 E2).
           now rewrite Hr2.
        -- destruct r2 as [|c3 r3]; [reflexivity|]. simpl in Hlen.
           assert (Hr3 : USVString (sanitize r3) = sanitize r3) by (apply IH; lia).
           destruct (byte_in 128 191 c3) eqn:E3; cbn [negb];
             [|now rewrite USVString_replacement, Hr2].
           rewrite (@lead_copied b c1 _ _ _ _ Eb E1), (@continuation_copied 128 191 c2 _ H191 E2),
             (@continuation_copied 128 191 c3 _ H191 E3). now rewrite Hr3.
    + now rewrite USVString_replacement, Hr.
Qed.

Lemma sanitize_lawful : lawful_decoder sanitize.
Proof.
  split.
  - intros b. apply sanitize_idem_bounded with (n := String.length b). lia.
  - apply sanitize_ascii.
  - intros s H. rewrite <- H.
    apply USVString_sanitize_bounded with (n := String.length s). lia.
Qed.

(** An unpaired surrogate becomes U+FFFD on the way into [URLSearchParams];
    its bytes, decoded, would give three of them. *)
Example USVString_lone_surrogate :
  USVString (String "a" lone_surrogate) = String "a" (replacement "")
  /\ sanitize lone_surrogate = replacement (replacement (replacement "")).
Proof. split; reflexivity. Qed.

Example sanitize_stray_byte :
  sanitize (String "a" (String (ascii_of_N 200) "b"))
  = String "a" (replacement "b").
Proof. reflexivity. Qed.

Example sanitize_two_bytes :
  sanitize (String (ascii_of_N 195) (String (ascii_of_N 169) "!"))
  = String (ascii_of_N 195) (String (ascii_of_N 169) "!").
Proof. reflexivity. Qed.

End UTF8Facts.

(* ===================================================================== *)
(** * Serializing and parsing a query string *)
(* ===================================================================== *)

Module URLFacts.
Import URLSearchParams.

Example toString_escapes :
  toString [("q", "zaps & notes"); ("", "")] = "q=zaps+%26+notes&=".
Proof. reflexivity. Qed.

Example split_on_keeps_empty_pieces :
  split_on "&" "a=1&&b=2&" = ["a=1"; ""; "b=2"; ""].
Proof. reflexivity. Qed.

Example set_replaces_first_and_drops_others :
  set "q" "new" [("q", "gm"); ("npub", "x"); ("q", "old")] = [("q", "new"); ("npub", "x")].
Proof. reflexivity. Qed.

(** Byte by byte: an encoded byte decodes to itself. *)
Lemma decode_encode_byte (c : ascii) (r : string) :
  percent_decode (plus_to_space (percent_encode (String c r)))
  = String c (percent_decode (plus_to_space (percent_encode r))).
Proof. each_byte c; reflexivity. Qed.

Lemma percent_decode_encode (s : string) :
  percent_decode (plus_to_space (percent_encode s)) = s.
Proof.
  induction s as [|c r IH]; [reflexivity|].
  now rewrite decode_encode_byte, IH.
Qed.

(** No encoded byte is a separator. *)
Lemma contains_encode_byte (c : ascii) (r : string) :
  contains "&" (percent_encode (String c r)) = contains "&" (percent_encode r)
  /\ contains "=" (percent_encode (String c r)) = contains "=" (percent_encode r).
Proof. each_byte c; split; reflexivity. Qed.

Lemma percent_encode_no_separator (s : string) :
  contains "&" (percent_encode s) = false /\ contains "=" (percent_encode s) = false.
Proof.
  induction s as [|c r [IH1 IH2]]; [split; reflexivity|].
  destruct (contains_encode_byte c r) as [-> ->]. now split.
Qed.

Lemma contains_append (sep : ascii) (a b : string) :
  contains sep (a ++ b) = (contains sep a || contains sep b)%bool.
Proof.
  induction a as [|c a IH]; [reflexivity|].
  simpl. now rewrite IH, orb_assoc.
Qed.

Lemma cut_at_append (sep : ascii) (a b : string) :
  contains sep a = false ->
  cut_at sep (a ++ String sep b) = (a, b).
Proof.
  induction a as [|c a IH]; simpl.
  - now rewrite Ascii.eqb_refl.
  - intros H. apply orb_false_elim in H. destruct H as [Hc Ha].
    now rewrite Hc, (IH Ha).
Qed.

Lemma split_on_whole (sep : ascii) (a : string) :
  contains sep a = false -> split_on sep a = [a].
Proof.
  induction a as [|c a IH]; simpl; [reflexivity|].
  intros H. apply orb_false_elim in H. destruct H as [Hc Ha].
  now rewrite Hc, (IH Ha).
Qed.

Lemma split_on_append (sep : ascii) (a b : string) :
  contains sep a = false ->
  split_on sep (a ++ String sep b) = a :: split_on sep b.
Proof.
  induction a as [|c a IH]; simpl.
  - now rewrite Ascii.eqb_refl.
  - intros H. apply orb_false_elim in H. destruct H as [Hc Ha].
    now rewrite Hc, (IH Ha).
Qed.

Lemma serialize_tuple_no_ampersand (p : string * string) :
  contains "&" (serialize_tuple p) = false.
Proof.
  unfold serialize_tuple. rewrite contains_append. simpl.
  destruct (percent_encode_no_separator (fst p)) as [-> _].
  destruct (percent_encode_no_separator (snd p)) as [-> _]. reflexivity.
Qed.

Lemma serialize_tuple_not_empty (p : string * string) :
  is_empty (serialize_tuple p) = false.
Proof.
  unfold serialize_tuple. destruct (percent_encode (fst p)); reflexivity.
Qed.

Lemma parse_piece_serialize_tuple (D : TextDecoder) (p : string * string) :
  parse_piece D (serialize_tuple p) = decode_tuple D p.
Proof.
  unfold parse_piece, serialize_tuple.
  rewrite cut_at_append by apply percent_encode_no_separator.
  now rewrite !percent_decode_encode.
Qed.

Lemma parse_cons (D : TextDecoder) (piece : string) (pieces : list string) :
  is_empty piece = false ->
  map (parse_piece D) (filter (fun piece => negb (is_empty piece)) (piece :: pieces))
  = parse_piece D piece
    :: map (parse_piece D) (filter (fun piece => negb (is_empty piece)) pieces).
Proof. intros H. simpl. now rewrite H. Qed.

(** Parsing what [toString] wrote gives the list back, decoded. *)
Lemma parse_toString (D : TextDecoder) (l : t) :
  parse D (toString l) = map (decode_tuple D) l.
Proof.
  unfold parse. induction l as [|p rest IH]; [reflexivity|].
  destruct rest as [|q rest].
  - simpl toString. rewrite split_on_whole by apply serialize_tuple_no_ampersand.
    rewrite parse_cons by apply serialize_tuple_not_empty.
    now rewrite parse_piece_serialize_tuple.
  - change (toString (p :: q :: rest))
      with (serialize_tuple p ++ String "&" (toString (q :: rest)))%string.
    rewrite split_on_append by apply serialize_tuple_no_ampersand.
    rewrite parse_cons by apply serialize_tuple_not_empty.
    now rewrite IH, parse_piece_serialize_tuple.
Qed.

Lemma toString_empty (l : t) :
  truthy (toString l) = false -> l = [].
Proof.
  destruct l as [|p rest]; [reflexivity|].
  unfold truthy. destruct rest as [|q rest].
  - simpl. now rewrite serialize_tuple_not_empty.
  - change (toString (p :: q :: rest))
      with (serialize_tuple p ++ String "&" (toString (q :: rest)))%string.
    pose proof (serialize_tuple_not_empty p) as H.
    destruct (serialize_tuple p); [discriminate H|discriminate].
Qed.

(** The address written by [updateUrl], read back by the constructor. *)
Lemma new_search_of (D : TextDecoder) (l : t) :
  new D (search_of l) = map (decode_tuple D) l.
Proof.
  unfold search_of. destruct (truthy (toString l)) eqn:E.
  - simpl. apply parse_toString.
  - apply toString_empty in E. subst l. reflexivity.
Qed.

Lemma names_decoded_new (D : TextDecoder) (init : string) :
  lawful_decoder D -> names_decoded D (new D init).
Proof.
  intros HD.
  assert (H : forall s, names_decoded D (parse D s)).
  { intros s. unfold names_decoded, parse. apply Forall_map. apply Forall_forall.
    intros piece _. unfold parse_piece. destruct (cut_at "=" piece). simpl.
    apply HD. }
  unfold new. destruct init as [|c r]; [apply H|].
  each_byte c; apply H.
Qed.

Lemma get_decoded (D : TextDecoder) (name : string) (l : t) :
  D name = name -> names_decoded D l ->
  get name (map (decode_tuple D) l) = option_map D (get name l).
Proof.
  intros Hn Hl. induction Hl as [|[n v] rest Hp Hrest IH]; [reflexivity|].
  simpl in *. rewrite Hp. destruct (String.eqb n name); [reflexivity|exact IH].
Qed.

Lemma get_set (name value : string) (l : t) :
  get name (set name value l) = Some value.
Proof.
  induction l as [|[n v] rest IH]; simpl.
  - now rewrite String.eqb_refl.
  - destruct (String.eqb n name) eqn:E; simpl.
    + now rewrite String.eqb_refl.
    + now rewrite E.
Qed.

Lemma get_delete (name : string) (l : t) :
  get name (delete name l) = None.
Proof.
  induction l as [|[n v] rest IH]; simpl; [reflexivity|].
  destruct (String.eqb n name) eqn:E; simpl; [exact IH|]. now rewrite E.
Qed.

Lemma has_get (name : string) (l : t) :
  has name l = false <-> get name l = None.
Proof.
  induction l as [|[n v] rest IH]; simpl; [tauto|].
  destruct (String.eqb n name); simpl; [split; discriminate|exact IH].
Qed.

Lemma names_decoded_delete (D : TextDecoder) (name : string) (l : t) :
  names_decoded D l -> names_decoded D (delete name l).
Proof.
  unfold names_decoded, delete. intros H.
  apply Forall_forall. intros p Hp. apply filter_In in Hp.
  rewrite Forall_forall in H. now apply H.
Qed.

Lemma names_decoded_set (D : TextDecoder) (name value : string) (l : t) :
  D name = name -> names_decoded D l -> names_decoded D (set name value l).
Proof.
  intros Hn H. induction H as [|[n v] rest Hp Hrest IH]; simpl.
  - constructor; [exact Hn|constructor].
  - destruct (String.eqb n name).
    + constructor; [exact Hn|]. now apply names_decoded_delete.
    + constructor; [exact Hp|exact IH].
Qed.

(** Setting then reading back, and deleting then reading back, through the
    address. *)
Lemma get_after_set (D : TextDecoder) (name value init : string) :
  lawful_decoder D -> D name = name ->
  get name (new D (search_of (set name value (new D init)))) = Some (D value).
Proof.
  intros HD Hn. rewrite new_search_of, get_decoded.
  - now rewrite get_set.
  - exact Hn.
  - apply names_decoded_set; [exact Hn|]. now apply names_decoded_new.
Qed.

Lemma get_after_delete (D : TextDecoder) (name init : string) :
  lawful_decoder D -> D name = name ->
  get name (new D (search_of (delete name (new D init)))) = None.
Proof.
  intros HD Hn. rewrite new_search_of, get_decoded.
  - now rewrite get_delete.
  - exact Hn.
  - apply names_decoded_delete. now apply names_decoded_new.
Qed.

End URLFacts.

(* ===================================================================== *)
(** * Dates *)
(* ===================================================================== *)

Module DateFacts.
Import JSDate.

Example new_year_2023 : parse_date_only "2023-01-01" = Some (2023, 1, 1)%Z.
Proof. reflexivity. Qed.

Example new_year_2023_seconds : (86400 * DayNumber 2023 1 1 = 1672531200)%Z.
Proof. reflexivity. Qed.

Example leap_day_2000_seconds : (86400 * DayNumber 2000 2 29 = 951782400)%Z.
Proof. reflexivity. Qed.

Example last_day_before_epoch : DayNumber 1969 12 31 = (-1)%Z.
Proof. reflexivity. Qed.

Example no_29th_of_february_2023 : parse_date_only "2023-02-29" = None.
Proof. reflexivity. Qed.

Example epoch_day : DayNumber 1970 1 1 = 0%Z.
Proof. reflexivity. Qed.

Example last_day_of_1999_seconds : (86400 * DayNumber 1999 12 31 = 946598400)%Z.
Proof. reflexivity. Qed.

Example day_of_2038_seconds : (86400 * DayNumber 2038 1 19 = 2147472000)%Z.
Proof. reflexivity. Qed.

(** The table of the months agrees with their lengths. *)
Lemma DayNumber_next_month (y m : Z) :
  (1 <= m < 12)%Z ->
  DayNumber y (m + 1) 1 = (DayNumber y m (DaysInMonth y m) + 1)%Z.
Proof.
  intros H. unfold DayNumber, DaysBeforeMonth, DaysInMonth.
  destruct m as [|p|p]; try lia.
  do 4 (try destruct p as [p|p|]; try lia);
    destruct (InLeapYear y); simpl; lia.
Qed.

Lemma Qred_inject_Z (z : Z) : Qred (inject_Z z) = inject_Z z.
Proof.
  unfold Qred, inject_Z.
  generalize (Z.ggcd_gcd z 1) (Z.ggcd_correct_divisors z 1).
  destruct (Z.ggcd z 1) as (g, (a, b)). simpl.
  rewrite Z.gcd_1_r. intros -> [Ha Hb].
  rewrite Z.mul_1_l in Ha, Hb. subst a b. reflexivity.
Qed.

Lemma div1000_whole_seconds (secs : Z) :
  div1000 (Some (secs * 1000)%Z) = number_of_Z secs.
Proof.
  unfold div1000, number_of_Z. f_equal.
  rewrite <- Qred_inject_Z. apply Qred_complete.
  unfold Qeq, inject_Z. simpl. lia.
Qed.

Lemma div1000_injective (a b : Z) :
  div1000 (Some a) = div1000 (Some b) -> a = b.
Proof.
  unfold div1000. intros H.
  assert (E : Qred (a # 1000) = Qred (b # 1000)) by congruence.
  apply Qred_eq_iff in E. unfold Qeq in E. simpl in E. lia.
Qed.

Lemma digit_digit_char (n : Z) :
  (0 <= n <= 9)%Z -> digit (digit_char n) = Some n.
Proof.
  intros H. destruct n as [|p|p]; [reflexivity| |lia].
  repeat (destruct p as [p|p|]; try lia; try reflexivity).
Qed.

Lemma number2_digit_chars (n : Z) :
  (0 <= n <= 99)%Z ->
  number2 (digit_char (n / 10)) (digit_char (n mod 10)) = Some n.
Proof.
  intros H. unfold number2.
  rewrite !digit_digit_char by div_lia.
  f_equal. div_lia.
Qed.

Lemma DaysInMonth_bound (y m : Z) : (DaysInMonth y m <= 31)%Z.
Proof.
  unfold DaysInMonth.
  repeat match goal with |- context [if ?b then _ else _] => destruct b end; lia.
Qed.

(** Every legal calendar date, written [YYYY-MM-DD], is read as itself. *)
Lemma parse_format_date_only (y m d : Z) :
  legal_date y m d = true ->
  parse_date_only (format_date_only y m d) = Some (y, m, d).
Proof.
  intros Hlegal. pose proof Hlegal as H.
  unfold legal_date in H.
  repeat (apply andb_prop in H; destruct H as [H ?]).
  repeat match goal with H : (_ <=? _)%Z = true |- _ => apply Z.leb_le in H end.
  pose proof (DaysInMonth_bound y m) as Hd.
  unfold parse_date_only, format_date_only.
  rewrite !Ascii.eqb_refl. cbn [andb].
  unfold number4.
  replace (y / 1000)%Z with ((y / 100) / 10)%Z by div_lia.
  replace (y / 10 mod 10)%Z with ((y mod 100) / 10)%Z by div_lia.
  replace (y mod 10)%Z with ((y mod 100) mod 10)%Z by div_lia.
  rewrite !number2_digit_chars by div_lia.
  replace (100 * (y / 100) + y mod 100)%Z with y by div_lia.
  now rewrite Hlegal.
Qed.

Lemma format_date_only_truthy (y m d : Z) :
  truthy (format_date_only y m d) = true.
Proof. reflexivity. Qed.

Lemma convertDateToUnixTimestamp_date_only env (y m d : Z) :
  legal_date y m d = true ->
  convertDateToUnixTimestamp env (format_date_only y m d)
  = number_of_Z (86400 * DayNumber y m d).
Proof.
  intros H. unfold convertDateToUnixTimestamp, getTime.
  rewrite (parse_format_date_only _ _ _ H).
  rewrite <- div1000_whole_seconds. f_equal. f_equal. unfold msPerDay. lia.
Qed.

Lemma spec_local_midnight_seconds_unfold (tza y m d : Z) :
  spec_local_midnight_seconds tza y m d
  = div1000 (Some (DayNumber y m d * msPerDay - tza)%Z).
Proof. reflexivity. Qed.

(** The two readings of a date agree exactly when local time is UTC. *)
Lemma local_reading_iff_utc env (tza y m d : Z) :
  legal_date y m d = true ->
  convertDateToUnixTimestamp env (format_date_only y m d)
  = spec_local_midnight_seconds tza y m d
  <-> tza = 0%Z.
Proof.
  intros H. rewrite spec_local_midnight_seconds_unfold.
  unfold convertDateToUnixTimestamp, getTime.
  rewrite (parse_format_date_only _ _ _ H). split.
  - intros E. apply div1000_injective in E. lia.
  - intros ->. f_equal. f_equal. lia.
Qed.

End DateFacts.

(* ===================================================================== *)
(** * Submitting the form *)
(* ===================================================================== *)

Lemma skipn_length_app {A : Type} (l x : list A) :
  skipn (List.length l) (l ++ x) = x.
Proof. induction l; simpl; auto. Qed.

Lemma skipn_length_self {A : Type} (l : list A) :
  skipn (List.length l) l = [].
Proof. rewrite <- (app_nil_r l) at 2. apply skipn_length_app. Qed.

Section Submit.

Variable env : Env.

Lemma decodeNpub_cases s w :
  decodeNpub env s w =
  match nip19_decode env s with
  | Returns r => (if String.eqb (type r) "npub" then Some (data r) else None, w)
  | Throws (ErrorInstance message) =>
    (None, with_toast w {| title := message; status := "error" |})
  | Throws (OtherValue _) => (None, w)
  end.
Proof.
  unfold decodeNpub.
  destruct (nip19_decode env s) as [r|[m|v]]; try reflexivity.
  destruct (String.eqb (type r) "npub"); reflexivity.
Qed.

Lemma onConnect_exec form key w :
  exec (onConnect env form key) w
  = {| app := {| isSearching := false; npub := npub (app w);
                 includeNotesFromFollowedUsers := includeNotesFromFollowedUsers (app w);
                 query := query (app w); fromDate := fromDate (app w);
                 toDate := toDate (app w);
                 events := fetched env form key;
                 currentDataLength := Nat.min 5 (List.length (fetched env form key)) |};
       location := location w;
       toasts := toasts w ++
                 (if (List.length (fetched env form key) =? 0)%nat
                  then [{| title := "no events found"; status := "info" |}] else []);
       console := console w ++ [("connected to " ++ RELAY_URL)%string];
       network := network w ++
                  (if includeNotesFromFollowedUsers form
                   then [RelayGet (contact_filter key)] else [])
                  ++ [RelayList [submitted_filter env form key]; RelayClose] |}.
Proof.
  unfold onConnect, exec, fetched, submitted_filter, contacts_of.
  destruct (includeNotesFromFollowedUsers form) eqn:E;
    unfold bind at 1 2; simpl;
    match goal with
    | |- context [ (List.length ?l =? 0)%nat ] => destruct (List.length l =? 0)%nat
    end;
    simpl; rewrite <- ?app_assoc, ?app_nil_r; reflexivity.
Qed.

Lemma onError_exec w :
  exec onError w
  = {| app := {| isSearching := false; npub := npub (app w);
                 includeNotesFromFollowedUsers := includeNotesFromFollowedUsers (app w);
                 query := query (app w); fromDate := fromDate (app w);
                 toDate := toDate (app w);
                 events := events (app w);
                 currentDataLength := currentDataLength (app w) |};
       location := location w;
       toasts := toasts w;
       console := console w ++ [("failed to connect to " ++ RELAY_URL)%string];
       network := network w |}.
Proof. reflexivity. Qed.

(** The handler, case by case. *)
Lemma handleSubmit_exec w :
  exec (handleSubmit env) w =
  if negb (truthy (npub (app w))) then
    with_toast w {| title := "npub is required"; status := "warning" |}
  else
    match nip19_decode env (npub (app w)) with
    | Returns r =>
      if (String.eqb (type r) "npub" && truthy (data r))%bool then
        match relay_connect env with
        | Connected => exec (onConnect env (app w) (data r)) (connecting w)
        | Failed => exec onError (connecting w)
        | Pending => connecting w
        end
      else w
    | Throws (ErrorInstance message) =>
      with_toast w {| title := message; status := "error" |}
    | Throws (OtherValue _) => w
    end.
Proof.
  unfold handleSubmit, decodeNpub, connecting, exec.
  unfold bind at 1. unfold read_app at 1.
  destruct (negb (truthy (npub (app w)))); [reflexivity|].
  unfold bind at 1.
  destruct (nip19_decode env (npub (app w))) as [r|[m|v]]; try reflexivity.
  destruct (String.eqb (type r) "npub"); [|reflexivity].
  unfold ret at 1. cbv beta iota.
  destruct (truthy (data r)); [|reflexivity].
  simpl andb. simpl negb. cbv iota.
  destruct (relay_connect env); reflexivity.
Qed.

Lemma network_connecting w :
  network (connecting w) = network w ++ [RelayInit RELAY_URL; RelayConnect].
Proof. unfold connecting, exec. simpl. now rewrite <- app_assoc. Qed.

Lemma handleSubmit_issued w :
  issued (handleSubmit env) w =
  if negb (truthy (npub (app w))) then []
  else
    match nip19_decode env (npub (app w)) with
    | Returns r =>
      if (String.eqb (type r) "npub" && truthy (data r))%bool
      then session env (app w) (data r) else []
    | Throws _ => []
    end.
Proof.
  unfold issued. rewrite handleSubmit_exec.
  pose proof (skipn_length_self (network w)) as Hnil.
  destruct (negb (truthy (npub (app w)))); [exact Hnil|].
  destruct (nip19_decode env (npub (app w))) as [r|[m|v]]; try exact Hnil.
  destruct (String.eqb (type r) "npub" && truthy (data r))%bool; [|exact Hnil].
  unfold session.
  destruct (relay_connect env).
  - rewrite onConnect_exec. cbn [network]. rewrite network_connecting.
    rewrite <- app_assoc. apply skipn_length_app.
  - rewrite onError_exec. cbn [network]. rewrite network_connecting.
    rewrite app_nil_r. apply skipn_length_app.
  - rewrite network_connecting. rewrite app_nil_r. apply skipn_length_app.
Qed.

(** A submission that decodes to a key runs the whole session. *)
Lemma handleSubmit_session w key :
  truthy (npub (app w)) = true ->
  nip19_decode env (npub (app w)) = Returns {| type := "npub"; data := key |} ->
  truthy key = true ->
  issued (handleSubmit env) w = session env (app w) key.
Proof.
  intros Hn Hd Hk. rewrite handleSubmit_issued, Hn, Hd. simpl. now rewrite Hk.
Qed.

(** Every note query the handler issues is the one filter built from the
    key the identifier decodes to. *)
Lemma handleSubmit_note_query w fs :
  In (RelayList fs) (issued (handleSubmit env) w) ->
  exists key,
    nip19_decode env (npub (app w)) = Returns {| type := "npub"; data := key |}
    /\ relay_connect env = Connected
    /\ fs = [submitted_filter env (app w) key].
Proof.
  rewrite handleSubmit_issued.
  destruct (negb (truthy (npub (app w)))); [intros []|].
  destruct (nip19_decode env (npub (app w))) as [[ty key]|e]; [|intros []].
  cbn [type data].
  destruct (String.eqb ty "npub") eqn:Ht; simpl andb; [|intros []].
  destruct (truthy key); [|intros []].
  apply String.eqb_eq in Ht. subst ty.
  unfold session. intros H. exists key.
  destruct (relay_connect env).
  - destruct (includeNotesFromFollowedUsers (app w)); in_literal H;
      injection H as <-; auto.
  - in_literal H.
  - in_literal H.
Qed.

Lemma handleSubmit_contact_fetch w f :
  In (RelayGet f) (issued (handleSubmit env) w) ->
  includeNotesFromFollowedUsers (app w) = true.
Proof.
  rewrite handleSubmit_issued.
  destruct (negb (truthy (npub (app w)))); [intros []|].
  destruct (nip19_decode env (npub (app w))) as [r|e]; [|intros []].
  destruct (String.eqb (type r) "npub" && truthy (data r))%bool; [|intros []].
  unfold session.
  destruct (relay_connect env); intros H.
  - destruct (includeNotesFromFollowedUsers (app w)); [reflexivity|]. in_literal H.
  - in_literal H.
  - in_literal H.
Qed.

Lemma authors_submitted_filter form key :
  authors (submitted_filter env form key)
  = if includeNotesFromFollowedUsers form
    then contacts_of env key ++ [Some key] else [Some key].
Proof.
  unfold submitted_filter, note_filter. simpl.
  destruct (includeNotesFromFollowedUsers form); reflexivity.
Qed.

(** C1: every note query a submission issues lists the decoded author key
    among its authors; with the followed authors included it lists every key
    taken from the contact list as well; without them its authors are the
    decoded key alone and no contact list is fetched. *)
Theorem note_query_authors w fs f :
  In (RelayList fs) (issued (handleSubmit env) w) ->
  In f fs ->
  exists key,
    nip19_decode env (npub (app w)) = Returns {| type := "npub"; data := key |}
    /\ In (Some key) (authors f)
    /\ (includeNotesFromFollowedUsers (app w) = true ->
        forall k, In k (contacts_of env key) -> In k (authors f))
    /\ (includeNotesFromFollowedUsers (app w) = false ->
        authors f = [Some key]
        /\ forall g, ~ In (RelayGet g) (issued (handleSubmit env) w)).
Proof.
  intros Hq Hf.
  destruct (handleSubmit_note_query _ _ Hq) as (key & Hd & _ & ->).
  destruct Hf as [<-|[]].
  exists key. rewrite authors_submitted_filter.
  split; [exact Hd|]. split; [|split].
  - destruct (includeNotesFromFollowedUsers (app w));
      [apply in_or_app; right|]; now left.
  - intros ->. intros k Hk. apply in_or_app. now left.
  - intros Hi. rewrite Hi. split; [reflexivity|].
    intros g Hg. apply handleSubmit_contact_fetch in Hg. congruence.
Qed.

(** C2: with the decoder of nostr-tools, which throws instances of [Error]
    only, every throw is reported with the message of the error and the
    submission stops there; a payload of another kind than ["npub"] gives no
    result and no message, and the submission stops with nothing changed. *)
Theorem decode_failure_asymmetry s w :
  throws_errors_only env ->
  (forall e,
      nip19_decode env s = Throws e ->
      exists message,
        e = ErrorInstance message
        /\ decodeNpub env s w
           = (None, with_toast w {| title := message; status := "error" |})
        /\ (npub (app w) = s -> s <> "" ->
            exec (handleSubmit env) w
            = with_toast w {| title := message; status := "error" |}))
  /\ (forall r,
      nip19_decode env s = Returns r ->
      type r <> "npub" ->
      decodeNpub env s w = (None, w)
      /\ (npub (app w) = s -> s <> "" -> exec (handleSubmit env) w = w)).
Proof.
  intros Honly.
  assert (Ht : forall x, x <> "" -> truthy x = true)
    by (intros [|c x] Hx; [contradiction|reflexivity]).
  split.
  - intros [m|v] Hd; [|now destruct (Honly s v)].
    exists m. rewrite decodeNpub_cases, Hd. split; [reflexivity|].
    split; [reflexivity|].
    intros Hs Hne. rewrite handleSubmit_exec, Hs, Hd, (Ht s Hne). reflexivity.
  - intros r Hd Hk. apply String.eqb_neq in Hk.
    rewrite decodeNpub_cases, Hd, Hk. split; [reflexivity|].
    intros Hs Hne. rewrite handleSubmit_exec, Hs, Hd, Hk, (Ht s Hne). reflexivity.
Qed.

(** C10: when [nip19.decode] throws a value that is not an [Error],
    [decodeNpub] returns nothing and shows nothing; a message appears only
    when an [Error] was thrown. *)
Theorem decodeNpub_thrown_value s w :
  (forall v, nip19_decode env s = Throws (OtherValue v) ->
             decodeNpub env s w = (None, w)
             /\ (npub (app w) = s -> s <> "" -> exec (handleSubmit env) w = w))
  /\ (snd (decodeNpub env s w) <> w ->
      exists message, nip19_decode env s = Throws (ErrorInstance message)).
Proof.
  rewrite decodeNpub_cases. split.
  - intros v Hd. rewrite Hd. split; [reflexivity|].
    intros Hs Hne. rewrite handleSubmit_exec, Hs, Hd.
    destruct s; [contradiction|reflexivity].
  - intros Hw. destruct (nip19_decode env s) as [r|[m|v]]; simpl in Hw.
    + contradiction.
    + now exists m.
    + contradiction.
Qed.

(** C9: with an empty identifier the handler shows the validation message
    and does nothing else: the state of the component, the address and the
    requests to the relay are those of before. *)
Theorem handleSubmit_requires_npub w :
  npub (app w) = "" ->
  handleSubmit env w
  = (tt, with_toast w {| title := "npub is required"; status := "warning" |})
  /\ app (exec (handleSubmit env) w) = app w
  /\ issued (handleSubmit env) w = [].
Proof.
  intros H.
  assert (E : handleSubmit env w
    = (tt, with_toast w {| title := "npub is required"; status := "warning" |})).
  { unfold handleSubmit, bind, read_app. rewrite H. reflexivity. }
  split; [exact E|]. unfold issued, exec. rewrite E. split; [reflexivity|].
  apply skipn_length_self.
Qed.

Lemma handleSubmit_failed_frame w :
  relay_connect env = Failed ->
  results (exec (handleSubmit env) w) = results w
  /\ cursor (exec (handleSubmit env) w) = cursor w
  /\ visible (app (exec (handleSubmit env) w)) = visible (app w).
Proof.
  intros Hc. rewrite handleSubmit_exec, Hc.
  destruct (negb (truthy (npub (app w)))); [repeat split; reflexivity|].
  destruct (nip19_decode env (npub (app w))) as [r|[m|v]];
    try (repeat split; reflexivity).
  destruct (String.eqb (type r) "npub" && truthy (data r))%bool;
    repeat split; reflexivity.
Qed.

(** C8: the listener of a failed connection resets the busy indicator and
    leaves the results, the cursor, what is shown, the form, the messages,
    the address and the requests as they were; so does a whole submission
    whose connection fails. *)
Theorem onError_frame w :
  isSearching (app (exec onError w)) = false
  /\ results (exec onError w) = results w
  /\ cursor (exec onError w) = cursor w
  /\ visible (app (exec onError w)) = visible (app w)
  /\ (forall f, field_value f (app (exec onError w)) = field_value f (app w))
  /\ includeNotesFromFollowedUsers (app (exec onError w))
     = includeNotesFromFollowedUsers (app w)
  /\ toasts (exec onError w) = toasts w
  /\ location (exec onError w) = location w
  /\ network (exec onError w) = network w
  /\ (relay_connect env = Failed ->
      results (exec (handleSubmit env) w) = results w
      /\ cursor (exec (handleSubmit env) w) = cursor w
      /\ visible (app (exec (handleSubmit env) w)) = visible (app w)).
Proof.
  rewrite onError_exec.
  repeat (split; [try reflexivity; intros []; reflexivity|]).
  apply handleSubmit_failed_frame.
Qed.

(** C4, as amended: with the followed authors included, the authors of the
    note query are the keys of the contact list, in order and with their
    repetitions, followed by the decoded key; they are free of duplicates
    exactly when the contact keys are and the decoded key is not among
    them. *)
Theorem followed_authors_duplicates w fs f :
  includeNotesFromFollowedUsers (app w) = true ->
  In (RelayList fs) (issued (handleSubmit env) w) ->
  In f fs ->
  exists key,
    nip19_decode env (npub (app w)) = Returns {| type := "npub"; data := key |}
    /\ authors f = contacts_of env key ++ [Some key]
    /\ (NoDup (authors f) <->
        NoDup (contacts_of env key) /\ ~ In (Some key) (contacts_of env key)).
Proof.
  intros Hi Hq Hf.
  destruct (handleSubmit_note_query _ _ Hq) as (key & Hd & _ & ->).
  destruct Hf as [<-|[]].
  exists key. rewrite authors_submitted_filter, Hi.
  split; [exact Hd|]. split; [reflexivity|]. split.
  - intros H. split.
    + eapply NoDup_app_remove_r. exact H.
    + intros Hin. apply NoDup_remove_2 in H. rewrite app_nil_r in H. auto.
  - intros [Hnd Hnin].
    apply NoDup_Add with (a := Some key) (l := contacts_of env key).
    + rewrite <- (app_nil_r (contacts_of env key)) at 1. apply Add_app.
    + auto.
Qed.

(** C5, as amended: the keys taken from a contact list are the second
    elements of its tags, one for each tag and in their order; a tag with no
    second element gives an undefined entry, which stays among the authors;
    whatever the tags are, the note query is issued and the session ends. *)
Theorem contact_tags_extraction w key contactListEvent :
  truthy (npub (app w)) = true ->
  nip19_decode env (npub (app w)) = Returns {| type := "npub"; data := key |} ->
  truthy key = true ->
  relay_connect env = Connected ->
  includeNotesFromFollowedUsers (app w) = true ->
  relay_get env (contact_filter key) = Some contactListEvent ->
  exists f,
    issued (handleSubmit env) w
    = [RelayInit RELAY_URL; RelayConnect; RelayGet (contact_filter key);
       RelayList [f]; RelayClose]
    /\ authors f
       = map (fun tag => nth_error tag 1) (tags contactListEvent) ++ [Some key]
    /\ List.length (authors f) = S (List.length (tags contactListEvent))
    /\ (forall tag, In tag (tags contactListEvent) -> (List.length tag < 2)%nat ->
        In None (authors f)).
Proof.
  intros Hn Hd Hk Hc Hi Hg.
  exists (submitted_filter env (app w) key).
  rewrite (handleSubmit_session _ Hn Hd Hk). unfold session. rewrite Hc, Hi.
  rewrite authors_submitted_filter, Hi. unfold contacts_of. rewrite Hg.
  unfold followed_of_tags.
  split; [reflexivity|]. split; [reflexivity|]. split.
  - rewrite length_app, length_map. simpl. lia.
  - intros tag Hin Hlen. apply in_or_app. left.
    apply in_map_iff. exists tag. split; [|exact Hin].
    apply nth_error_None. lia.
Qed.

(** C6, as amended: for a legal calendar date written [YYYY-MM-DD] the
    bound is the whole number of seconds from the epoch to midnight UTC of
    that date, 86400 times its day number; it is the midnight of local time
    exactly when local time is UTC; an empty field gives no bound. *)
Theorem date_bounds_are_utc_midnight form followed key :
  let f := note_filter env form followed key in
  (forall y m d,
      JSDate.legal_date y m d = true ->
      fromDate form = JSDate.format_date_only y m d ->
      since f = Some (number_of_Z (86400 * JSDate.DayNumber y m d))
      /\ (exists x, since f = Some x /\ is_integer x)
      /\ (forall tza,
          since f = Some (JSDate.spec_local_midnight_seconds tza y m d)
          <-> tza = 0%Z))
  /\ (forall y m d,
      JSDate.legal_date y m d = true ->
      toDate form = JSDate.format_date_only y m d ->
      until f = Some (number_of_Z (86400 * JSDate.DayNumber y m d))
      /\ (exists x, until f = Some x /\ is_integer x)
      /\ (forall tza,
          until f = Some (JSDate.spec_local_midnight_seconds tza y m d)
          <-> tza = 0%Z))
  /\ (fromDate form = "" -> since f = None)
  /\ (toDate form = "" -> until f = None).
Proof.
  assert (Hbound : forall y m d, JSDate.legal_date y m d = true ->
    let b := Some (convertDateToUnixTimestamp env (JSDate.format_date_only y m d)) in
    b = Some (number_of_Z (86400 * JSDate.DayNumber y m d))
    /\ (exists x, b = Some x /\ is_integer x)
    /\ (forall tza, b = Some (JSDate.spec_local_midnight_seconds tza y m d)
                    <-> tza = 0%Z)).
  { intros y m d H b. unfold b.
    rewrite (DateFacts.convertDateToUnixTimestamp_date_only env _ _ _ H).
    split; [reflexivity|]. split.
    - eexists. split; [reflexivity|]. eexists. reflexivity.
    - intros tza.
      rewrite <- (DateFacts.convertDateToUnixTimestamp_date_only env _ _ _ H).
      rewrite <- (DateFacts.local_reading_iff_utc env tza _ _ _ H).
      split; [intros E; now injection E|intros ->; reflexivity]. }
  intros f. unfold f, note_filter. cbn [since until].
  split; [|split; [|split]].
  - intros y m d H ->. rewrite DateFacts.format_date_only_truthy. now apply Hbound.
  - intros y m d H ->. rewrite DateFacts.format_date_only_truthy. now apply Hbound.
  - intros ->. reflexivity.
  - intros ->. reflexivity.
Qed.

End Submit.

(* ===================================================================== *)
(** * Revealing the results *)
(* ===================================================================== *)

Lemma updateCurrentDataLength_unfold (w : World) :
  cursor (exec updateCurrentDataLength w)
  = if (cursor w + 5 <? List.length (results w))%nat
    then cursor w + 5 else List.length (results w).
Proof. reflexivity. Qed.

Lemma updateCurrentDataLength_cursor (w : World) :
  cursor (exec updateCurrentDataLength w)
  = Nat.min (cursor w + 5) (List.length (results w)).
Proof.
  rewrite updateCurrentDataLength_unfold.
  destruct (Nat.ltb_spec (cursor w + 5) (List.length (results w))); lia.
Qed.

Lemma updateCurrentDataLength_results (w : World) :
  results (exec updateCurrentDataLength w) = results w.
Proof. reflexivity. Qed.

Lemma reveal_S (k : nat) (w : World) :
  reveal (S k) w = exec updateCurrentDataLength (reveal k w).
Proof. reflexivity. Qed.

Lemma reveal_results (k : nat) (w : World) :
  results (reveal k w) = results w.
Proof.
  induction k as [|k IH]; [reflexivity|].
  now rewrite reveal_S, updateCurrentDataLength_results.
Qed.

(** The cursor after [k] calls, in closed form. *)
Lemma reveal_cursor (k : nat) (w : World) :
  (cursor w <= List.length (results w))%nat ->
  cursor (reveal k w) = Nat.min (cursor w + 5 * k) (List.length (results w)).
Proof.
  intros Hle. induction k as [|k IH].
  - unfold reveal. simpl. lia.
  - rewrite reveal_S, updateCurrentDataLength_cursor, reveal_results, IH. lia.
Qed.

Lemma onConnect_installs env form key w :
  results (exec (onConnect env form key) w) = fetched env form key
  /\ cursor (exec (onConnect env form key) w)
     = Nat.min 5 (List.length (fetched env form key)).
Proof. rewrite onConnect_exec. split; reflexivity. Qed.

(** The scroller asks for more exactly while part of the results is hidden. *)
Lemma hasMore_iff_hidden (s : AppState) :
  hasMore s = true <-> (List.length (visible s) < List.length (events s))%nat.
Proof.
  unfold hasMore, visible. rewrite Nat.ltb_lt, length_firstn. lia.
Qed.

Lemma ceiling_fifth (n : nat) : (n <= 5 * ((n + 4) / 5))%nat.
Proof.
  pose proof (Nat.div_mod_eq (n + 4) 5).
  pose proof (Nat.mod_upper_bound (n + 4) 5). lia.
Qed.

(** C3: installing [n] results sets the cursor to min(5, n); each call of
    [updateCurrentDataLength] sets it to min(cursor + 5, n); so under repeated
    calls the cursor never decreases, never exceeds [n], is [n] after
    ceil(n / 5) calls, and stays there. *)
Theorem reveal_cursor_progress env form key w k :
  let w0 := exec (onConnect env form key) w in
  let n := List.length (results w0) in
  cursor w0 = Nat.min 5 n
  /\ (forall w', cursor (exec updateCurrentDataLength w')
                 = Nat.min (cursor w' + 5) (List.length (results w')))
  /\ results (reveal k w0) = results w0
  /\ (cursor (reveal k w0) <= cursor (reveal (S k) w0))%nat
  /\ (cursor (reveal k w0) <= n)%nat
  /\ ((n + 4) / 5 <= k -> cursor (reveal k w0) = n)%nat
  /\ (cursor (reveal k w0) = n -> cursor (reveal (S k) w0) = n).
Proof.
  intros w0 n.
  destruct (onConnect_installs env form key w) as [Hr Hc].
  fold w0 in Hr, Hc.
  assert (Hn : n = List.length (fetched env form key)) by (unfold n; now rewrite Hr).
  assert (H0 : cursor w0 = Nat.min 5 n) by (rewrite Hc, Hn; reflexivity).
  assert (Hle : (cursor w0 <= List.length (results w0))%nat) by (fold n; lia).
  pose proof (reveal_cursor k w0 Hle) as Hk.
  pose proof (reveal_cursor (S k) w0 Hle) as HSk.
  fold n in Hk, HSk.
  split; [exact H0|]. split; [apply updateCurrentDataLength_cursor|].
  split; [apply reveal_results|].
  split; [lia|]. split; [lia|]. split.
  - intros Hceil. rewrite Hk, H0. pose proof (ceiling_fifth n). lia.
  - lia.
Qed.


(* ===================================================================== *)
(** * The form and the query string *)
(* ===================================================================== *)

Section Changes.

Import URLSearchParams.

Variable D : TextDecoder.
Variable O : Origin.

Lemma field_key_scalar f : USVString (field_key f) = field_key f.
Proof. destruct f; reflexivity. Qed.

Lemma replaceState_cases path query :
  replaceState O path query
  = if refused O path then None
    else Some {| pathname := path_after O path;
                 search_string := if truthy query then String "?" query else "" |}.
Proof.
  unfold refused, path_after, replaceState.
  destruct (scheme_relative path); [destruct (O path)|]; reflexivity.
Qed.

(** A path with one slash at its head is accepted and kept. *)
Lemma path_kept path :
  scheme_relative path = false -> refused O path = false /\ path_after O path = path.
Proof.
  unfold refused, path_after, replaceState. intros ->. split; reflexivity.
Qed.

(** The change handler of a text field, case by case: where [replaceState]
    throws nothing changes; elsewhere the field takes the value and the
    address its new parameters. *)
Lemma onFieldChange_exec f value w :
  exec (onFieldChange D O f value) w
  = if refused O (pathname (location w)) then w
    else
      {| app := app (exec (field_setter f value) w);
         location :=
           {| pathname := path_after O (pathname (location w));
              search_string :=
                search_of (if truthy value
                           then set (field_key f) (USVString value)
                                  (new D (search_string (location w)))
                           else delete (field_key f)
                                  (new D (search_string (location w)))) |};
         toasts := toasts w; console := console w; network := network w |}.
Proof.
  unfold onFieldChange, makeOnChangeHandler, updateUrl, exec, bind, read_location.
  rewrite field_key_scalar, replaceState_cases.
  destruct (refused O (pathname (location w))); [reflexivity|].
  destruct f; reflexivity.
Qed.

Lemma onIncludeFollowedChange_exec w :
  exec (onIncludeFollowedChange D O) w
  = if refused O (pathname (location w)) then w
    else
      {| app := app (exec (setIncludeNotesFromFollowedUsers
                             (negb (includeNotesFromFollowedUsers (app w)))) w);
         location :=
           {| pathname := path_after O (pathname (location w));
              search_string :=
                search_of (if negb (includeNotesFromFollowedUsers (app w))
                           then set INCLUDE_FOLLOWED_USERS_QUERY_PARAM "1"
                                  (new D (search_string (location w)))
                           else delete INCLUDE_FOLLOWED_USERS_QUERY_PARAM
                                  (new D (search_string (location w)))) |};
         toasts := toasts w; console := console w; network := network w |}.
Proof.
  unfold onIncludeFollowedChange, updateIncludeFollowedQueryParam, updateUrl,
    exec, bind, read_location, read_app.
  rewrite replaceState_cases.
  destruct (refused O (pathname (location w))); reflexivity.
Qed.

(** Where [replaceState] throws, the handlers throw and leave the page as
    it was. *)
Lemma onFieldChange_threw f value w :
  refused O (pathname (location w)) = true ->
  onFieldChange D O f value w = (Threw, w).
Proof.
  intros H. unfold onFieldChange, makeOnChangeHandler, updateUrl, bind, read_location.
  now rewrite replaceState_cases, H.
Qed.


Lemma onFieldChange_search f value w :
  refused O (pathname (location w)) = false ->
  search_string (location (exec (onFieldChange D O f value) w))
  = search_of (if truthy value
               then set (field_key f) (USVString value) (new D (search_string (location w)))
               else delete (field_key f) (new D (search_string (location w)))).
Proof. intros H. rewrite onFieldChange_exec, H. reflexivity. Qed.

Lemma onFieldChange_value f value w :
  refused O (pathname (location w)) = false ->
  field_value f (app (exec (onFieldChange D O f value) w)) = value.
Proof. intros H. rewrite onFieldChange_exec, H. destruct f; reflexivity. Qed.

Lemma onFieldChange_others f g value w :
  g <> f ->
  field_value g (app (exec (onFieldChange D O f value) w)) = field_value g (app w).
Proof.
  intros Hg. rewrite onFieldChange_exec.
  destruct (refused O (pathname (location w))); [reflexivity|].
  destruct f, g; try reflexivity; contradiction.
Qed.

Lemma onIncludeFollowedChange_search w :
  refused O (pathname (location w)) = false ->
  search_string (location (exec (onIncludeFollowedChange D O) w))
  = search_of (if negb (includeNotesFromFollowedUsers (app w))
               then set INCLUDE_FOLLOWED_USERS_QUERY_PARAM "1"
                      (new D (search_string (location w)))
               else delete INCLUDE_FOLLOWED_USERS_QUERY_PARAM
                      (new D (search_string (location w)))).
Proof. intros H. rewrite onIncludeFollowedChange_exec, H. reflexivity. Qed.

Lemma onIncludeFollowedChange_flag w :
  refused O (pathname (location w)) = false ->
  includeNotesFromFollowedUsers (app (exec (onIncludeFollowedChange D O) w))
  = negb (includeNotesFromFollowedUsers (app w)).
Proof. intros H. rewrite onIncludeFollowedChange_exec, H. reflexivity. Qed.

Lemma initialState_field f loc :
  field_value f (initialState D loc)
  = match get (field_key f) (new D (search_string loc)) with
    | Some v => v
    | None => ""
    end.
Proof. destruct f; reflexivity. Qed.

Lemma initialState_include loc :
  includeNotesFromFollowedUsers (initialState D loc)
  = match get INCLUDE_FOLLOWED_USERS_QUERY_PARAM (new D (search_string loc)) with
    | Some v => String.eqb v "1"
    | None => false
    end.
Proof. reflexivity. Qed.

End Changes.

Section QueryString.

Import URLSearchParams.

Variable D : TextDecoder.
Variable O : Origin.
Hypothesis D_lawful : lawful_decoder D.

Lemma field_key_decoded f : D (field_key f) = field_key f.
Proof. apply D_lawful. destruct f; reflexivity. Qed.

(** C7, as amended: on a page where [replaceState] does not throw, a change
    of a text field to a value that is well-formed text sets the state to
    it, and the state read from the address the change leaves is that value
    again; a value that is not empty is under the key of the field, and the
    empty value removes the key.  The checkbox likewise: the address holds
    its key exactly when it is ticked.  With a key absent the field starts
    empty and the box unticked. *)
Theorem query_string_round_trip f value w :
  D value = value ->
  refused O (pathname (location w)) = false ->
  let w' := exec (onFieldChange D O f value) w in
  let w'' := exec (onIncludeFollowedChange D O) w in
  field_value f (app w') = value
  /\ field_value f (initialState D (location w')) = value
  /\ (value <> "" ->
      get (field_key f) (new D (search_string (location w'))) = Some value)
  /\ (value = "" ->
      has (field_key f) (new D (search_string (location w'))) = false)
  /\ includeNotesFromFollowedUsers (app w'')
     = negb (includeNotesFromFollowedUsers (app w))
  /\ includeNotesFromFollowedUsers (initialState D (location w''))
     = includeNotesFromFollowedUsers (app w'')
  /\ (includeNotesFromFollowedUsers (app w'') = false ->
      has INCLUDE_FOLLOWED_USERS_QUERY_PARAM (new D (search_string (location w'')))
      = false)
  /\ (forall loc,
      has (field_key f) (new D (search_string loc)) = false ->
      field_value f (initialState D loc) = "")
  /\ (forall loc,
      has INCLUDE_FOLLOWED_USERS_QUERY_PARAM (new D (search_string loc)) = false ->
      includeNotesFromFollowedUsers (initialState D loc) = false).
Proof.
  intros Hv Hok w' w''.
  assert (Hk := field_key_decoded f).
  assert (Hu : USVString value = value) by now apply D_lawful.
  assert (Hi : D INCLUDE_FOLLOWED_USERS_QUERY_PARAM = INCLUDE_FOLLOWED_USERS_QUERY_PARAM)
    by (apply D_lawful; reflexivity).
  assert (Hget : get (field_key f) (new D (search_string (location w')))
                 = if truthy value then Some value else None).
  { unfold w'. rewrite (@onFieldChange_search D O f value w Hok), Hu.
    destruct (truthy value).
    - now rewrite URLFacts.get_after_set, Hv.
    - now apply URLFacts.get_after_delete. }
  assert (Hinc : get INCLUDE_FOLLOWED_USERS_QUERY_PARAM
                   (new D (search_string (location w'')))
                 = if negb (includeNotesFromFollowedUsers (app w))
                   then Some "1" else None).
  { unfold w''. rewrite (@onIncludeFollowedChange_search D O w Hok).
    destruct (negb (includeNotesFromFollowedUsers (app w))).
    - rewrite URLFacts.get_after_set by assumption. f_equal. now apply D_lawful.
    - now apply URLFacts.get_after_delete. }
  assert (Hstate : includeNotesFromFollowedUsers (app w'')
                   = negb (includeNotesFromFollowedUsers (app w)))
    by exact (@onIncludeFollowedChange_flag D O w Hok).
  split; [exact (@onFieldChange_value D O f value w Hok)|].
  split.
  { rewrite initialState_field, Hget. destruct value; reflexivity. }
  split.
  { intros Hne. rewrite Hget. destruct value; [contradiction|reflexivity]. }
  split.
  { intros ->. apply URLFacts.has_get. rewrite Hget. reflexivity. }
  split; [exact Hstate|].
  split.
  { rewrite Hstate, initialState_include, Hinc.
    destruct (negb (includeNotesFromFollowedUsers (app w))); reflexivity. }
  split.
  { rewrite Hstate. intros E. apply URLFacts.has_get. rewrite Hinc, E. reflexivity. }
  split.
  { intros loc Hh. apply URLFacts.has_get in Hh.
    rewrite initialState_field, Hh. reflexivity. }
  { intros loc Hh. apply URLFacts.has_get in Hh.
    rewrite initialState_include, Hh. reflexivity. }
Qed.

End QueryString.

(* ===================================================================== *)
(** * The sample session, run *)
(* ===================================================================== *)

(** Alice's key with the followed authors: the contact list is fetched and
    every key of it is among the authors. *)
Lemma note_query_authors_witness :
  In (RelayList [alice_filter])
     (issued (handleSubmit (sample_env Connected)) (sample_world "npub1alice" true))
  /\ exists key,
      nip19_decode (sample_env Connected) "npub1alice"
      = Returns {| type := "npub"; data := key |}
      /\ In (Some key) (authors alice_filter)
      /\ (includeNotesFromFollowedUsers (sample_form "npub1alice" true) = true ->
          forall k, In k (contacts_of (sample_env Connected) key) ->
                    In k (authors alice_filter))
      /\ (includeNotesFromFollowedUsers (sample_form "npub1alice" true) = false ->
          authors alice_filter = [Some key]
          /\ forall g, ~ In (RelayGet g)
                          (issued (handleSubmit (sample_env Connected))
                                  (sample_world "npub1alice" true))).
Proof.
  assert (H : In (RelayList [alice_filter])
                 (issued (handleSubmit (sample_env Connected))
                         (sample_world "npub1alice" true))).
  { vm_compute. auto. }
  split; [exact H|].
  apply (@note_query_authors (sample_env Connected) (sample_world "npub1alice" true)
           [alice_filter] alice_filter H).
  left. reflexivity.
Defined.

Lemma strict_env_throws_errors_only (c : Connection) : throws_errors_only (strict_env c).
Proof.
  intros s v. unfold strict_env. cbn [nip19_decode].
  destruct (sample_decode s); discriminate.
Qed.

(** An identifier that does not parse is reported; a note identifier is
    dropped in silence. *)
Lemma decode_failure_asymmetry_witness :
  (exec (handleSubmit (strict_env Connected)) (sample_world "nsec" false)
   = with_toast (sample_world "nsec" false)
       {| title := "Unknown letter"; status := "error" |})
  /\ (decodeNpub (strict_env Connected) "note1hello" (sample_world "note1hello" false)
      = (None, sample_world "note1hello" false)
      /\ exec (handleSubmit (strict_env Connected)) (sample_world "note1hello" false)
         = sample_world "note1hello" false).
Proof.
  split.
  - destruct (proj1 (@decode_failure_asymmetry (strict_env Connected) "nsec"
                       (sample_world "nsec" false)
                       (strict_env_throws_errors_only Connected))
                    (ErrorInstance "Unknown letter") eq_refl)
      as (message & Hm & _ & H).
    injection Hm as <-. apply H; [reflexivity|discriminate].
  - destruct (proj2 (@decode_failure_asymmetry (strict_env Connected) "note1hello"
                       (sample_world "note1hello" false)
                       (strict_env_throws_errors_only Connected))
                    {| type := "note"; data := "4e07e" |}) as [H1 H2];
      [reflexivity|discriminate|].
    split; [exact H1|]. apply H2; [reflexivity|discriminate].
Defined.

Lemma decodeNpub_thrown_value_witness :
  decodeNpub (sample_env Connected) "npub1thrown" (sample_world "npub1thrown" false)
  = (None, sample_world "npub1thrown" false)
  /\ exec (handleSubmit (sample_env Connected)) (sample_world "npub1thrown" false)
     = sample_world "npub1thrown" false.
Proof.
  destruct (proj1 (@decodeNpub_thrown_value (sample_env Connected) "npub1thrown"
                     (sample_world "npub1thrown" false)) "checksum") as [H1 H2];
    [reflexivity|].
  split; [exact H1|]. apply H2; [reflexivity|discriminate].
Defined.

Lemma handleSubmit_requires_npub_witness :
  npub (app (sample_world "" true)) = ""
  /\ handleSubmit (sample_env Connected) (sample_world "" true)
     = (tt, with_toast (sample_world "" true)
              {| title := "npub is required"; status := "warning" |})
  /\ app (exec (handleSubmit (sample_env Connected)) (sample_world "" true))
     = app (sample_world "" true)
  /\ issued (handleSubmit (sample_env Connected)) (sample_world "" true) = [].
Proof.
  split; [reflexivity|].
  apply (@handleSubmit_requires_npub (sample_env Connected) (sample_world "" true)).
  reflexivity.
Defined.

(** A failed connection after results were shown: they stay. *)
Lemma onError_frame_witness :
  results (exec (handleSubmit (sample_env Failed)) (sample_world "npub1alice" true))
  = [note 0]
  /\ cursor (exec (handleSubmit (sample_env Failed)) (sample_world "npub1alice" true))
     = 1%nat
  /\ isSearching (app (exec (handleSubmit (sample_env Failed))
                            (sample_world "npub1alice" true))) = false.
Proof.
  destruct (@onError_frame (sample_env Failed) (sample_world "npub1alice" true))
    as (_ & _ & _ & _ & _ & _ & _ & _ & _ & H).
  destruct (H eq_refl) as (Hr & Hc & _).
  split; [exact Hr|]. split; [exact Hc|reflexivity].
Defined.

Lemma followed_authors_duplicates_witness :
  includeNotesFromFollowedUsers (app (sample_world "npub1alice" true)) = true
  /\ exists key,
      nip19_decode (sample_env Connected) "npub1alice"
      = Returns {| type := "npub"; data := key |}
      /\ authors alice_filter = contacts_of (sample_env Connected) key ++ [Some key]
      /\ (NoDup (authors alice_filter) <->
          NoDup (contacts_of (sample_env Connected) key)
          /\ ~ In (Some key) (contacts_of (sample_env Connected) key)).
Proof.
  split; [reflexivity|].
  apply (@followed_authors_duplicates (sample_env Connected)
           (sample_world "npub1alice" true) [alice_filter] alice_filter).
  - reflexivity.
  - vm_compute. auto.
  - left. reflexivity.
Defined.

(** C4 as stated fails: the contact list holds the author's own key, and
    the authors of the note query hold it twice. *)
Lemma own_key_is_listed_twice :
  In (RelayList [alice_filter])
     (issued (handleSubmit (sample_env Connected)) (sample_world "npub1alice" true))
  /\ authors alice_filter = [Some "b0b"; None; Some "a11ce"; Some "a11ce"]
  /\ ~ NoDup (authors alice_filter).
Proof.
  split; [vm_compute; auto|]. split; [reflexivity|].
  intros H. vm_compute in H.
  inversion H as [|? ? _ H1]; subst. inversion H1 as [|? ? _ H2]; subst.
  inversion H2 as [|? ? Hn _]; subst. apply Hn. now left.
Qed.

Lemma contact_tags_extraction_witness :
  exists f,
    issued (handleSubmit (sample_env Connected)) (sample_world "npub1alice" true)
    = [RelayInit RELAY_URL; RelayConnect; RelayGet (contact_filter "a11ce");
       RelayList [f]; RelayClose]
    /\ authors f
       = map (fun tag => nth_error tag 1) (tags contact_list) ++ [Some "a11ce"]
    /\ List.length (authors f) = S (List.length (tags contact_list))
    /\ (forall tag, In tag (tags contact_list) -> (List.length tag < 2)%nat ->
        In None (authors f)).
Proof.
  apply (@contact_tags_extraction (sample_env Connected) (sample_world "npub1alice" true));
    reflexivity.
Defined.

(** C5 as stated fails: the tag with no second element is not skipped, and
    the authors of the note query hold an undefined entry. *)
Lemma malformed_tag_is_not_skipped :
  tags contact_list = [["p"; "b0b"]; ["p"]; ["p"; "a11ce"]]
  /\ issued (handleSubmit (sample_env Connected)) (sample_world "npub1alice" true)
     = [RelayInit RELAY_URL; RelayConnect; RelayGet (contact_filter "a11ce");
        RelayList [alice_filter]; RelayClose]
  /\ authors alice_filter = [Some "b0b"; None; Some "a11ce"; Some "a11ce"]
  /\ In None (authors alice_filter).
Proof. repeat split. right. left. reflexivity. Qed.

Lemma date_bounds_are_utc_midnight_witness :
  JSDate.legal_date 2023 1 1 = true
  /\ fromDate (sample_form "npub1alice" false) = JSDate.format_date_only 2023 1 1
  /\ since (note_filter (sample_env Connected) (sample_form "npub1alice" false) [] "a11ce")
     = Some (number_of_Z 1672531200)
  /\ until (note_filter (sample_env Connected) (sample_form "npub1alice" false) [] "a11ce")
     = None.
Proof.
  destruct (@date_bounds_are_utc_midnight (sample_env Connected)
              (sample_form "npub1alice" false) [] "a11ce") as (Hs & _ & _ & Hu).
  destruct (Hs 2023 1 1 eq_refl eq_refl)%Z as (H & _).
  split; [reflexivity|]. split; [reflexivity|]. split; [exact H|].
  apply Hu. reflexivity.
Defined.

(** C6 as stated fails: one hour east of UTC, midnight of 2023-01-01 local
    time is 3600 seconds before the bound the query gets. *)
Lemma date_bound_is_not_local_midnight :
  fromDate (sample_form "npub1alice" false) = "2023-01-01"
  /\ since (note_filter (sample_env Connected) (sample_form "npub1alice" false) [] "a11ce")
     = Some (number_of_Z 1672531200)
  /\ JSDate.spec_local_midnight_seconds 3600000 2023 1 1 = number_of_Z 1672527600
  /\ number_of_Z 1672531200 <> number_of_Z 1672527600.
Proof. repeat split. discriminate. Qed.

(** Twelve notes: the cursor goes 5, 10, 12, 12. *)
Lemma reveal_cursor_progress_witness :
  cursor (exec (onConnect (sample_env Connected) (sample_form "npub1alice" false) "a11ce")
               (sample_world "npub1alice" false)) = 5%nat
  /\ cursor (reveal 1 (exec (onConnect (sample_env Connected)
                               (sample_form "npub1alice" false) "a11ce")
                            (sample_world "npub1alice" false))) = 10%nat
  /\ cursor (reveal 2 (exec (onConnect (sample_env Connected)
                               (sample_form "npub1alice" false) "a11ce")
                            (sample_world "npub1alice" false))) = 12%nat
  /\ cursor (reveal 3 (exec (onConnect (sample_env Connected)
                               (sample_form "npub1alice" false) "a11ce")
                            (sample_world "npub1alice" false))) = 12%nat.
Proof.
  destruct (@reveal_cursor_progress (sample_env Connected)
              (sample_form "npub1alice" false) "a11ce"
              (sample_world "npub1alice" false) 3)
    as (H0 & _ & _ & _ & _ & H3 & _).
  split; [exact H0|]. split; [reflexivity|]. split; [reflexivity|].
  apply H3. vm_compute. repeat constructor.
Defined.

(** Typing a query with a space and an ampersand into the page
    [/?query=gm&npub=npub1bob&query=old]. *)
Lemma query_string_round_trip_witness :
  UTF8.sanitize "zaps & notes" = "zaps & notes"
  /\ refused other_origin (pathname (location (sample_world "" false))) = false
  /\ search_string (location (exec (onFieldChange UTF8.sanitize other_origin
                                       FieldQuery "zaps & notes")
                                   (sample_world "" false)))
     = "?query=zaps+%26+notes&npub=npub1bob"
  /\ field_value FieldQuery
       (initialState UTF8.sanitize
          (location (exec (onFieldChange UTF8.sanitize other_origin
                             FieldQuery "zaps & notes")
                          (sample_world "" false))))
     = "zaps & notes".
Proof.
  destruct (@query_string_round_trip UTF8.sanitize other_origin UTF8Facts.sanitize_lawful
              FieldQuery "zaps & notes" (sample_world "" false) eq_refl eq_refl)
    as (_ & H & _).
  split; [reflexivity|]. split; [reflexivity|]. split; [reflexivity|exact H].
Defined.

(** C7 as stated fails, twice.  On the page [https://host//search?query=gm]
    the reference [//search?query=zaps] names another host: [replaceState]
    throws, the address and the field keep ["gm"], and the page loaded at
    that address shows ["gm"], not ["zaps"].  And an unpaired surrogate
    typed into the field stays in the state as typed, while the address
    takes U+FFFD for it and gives U+FFFD back. *)
Lemma round_trip_is_broken :
  load UTF8.sanitize (location doubled_slash) = doubled_slash
  /\ refused other_origin (pathname (location doubled_slash)) = true
  /\ onFieldChange UTF8.sanitize other_origin FieldQuery "zaps" doubled_slash
     = (Threw, doubled_slash)
  /\ field_value FieldQuery (app doubled_slash) = "gm"
  /\ field_value FieldQuery (initialState UTF8.sanitize (location doubled_slash)) = "gm"
  /\ onIncludeFollowedChange UTF8.sanitize other_origin doubled_slash
     = (Threw, doubled_slash)
  /\ field_value FieldQuery
       (app (exec (onFieldChange UTF8.sanitize other_origin FieldQuery lone_surrogate)
                  (sample_world "" false)))
     = lone_surrogate
  /\ search_string
       (location (exec (onFieldChange UTF8.sanitize other_origin FieldQuery lone_surrogate)
                       (sample_world "" false)))
     = "?query=%EF%BF%BD&npub=npub1bob"
  /\ field_value FieldQuery
       (initialState UTF8.sanitize
          (location (exec (onFieldChange UTF8.sanitize other_origin
                             FieldQuery lone_surrogate)
                          (sample_world "" false))))
     = UTF8.replacement ""
  /\ String.eqb lone_surrogate (UTF8.replacement "") = false.
Proof. repeat split. Qed.

(* ===================================================================== *)
(** * More on the query string *)
(* ===================================================================== *)

Module URLMore.
Import URLSearchParams.

Lemma decoded_names (D : TextDecoder) (l : t) :
  decoded D l -> names_decoded D l.
Proof.
  unfold decoded, names_decoded. intros H.
  eapply Forall_impl; [|exact H]. intros p [Hn _]. exact Hn.
Qed.

Lemma decoded_new (D : TextDecoder) (init : string) :
  lawful_decoder D -> decoded D (new D init).
Proof.
  intros HD.
  assert (H : forall s, decoded D (parse D s)).
  { intros s. unfold decoded, parse. apply Forall_map. apply Forall_forall.
    intros piece _. unfold parse_piece. destruct (cut_at "=" piece). simpl.
    split; apply HD. }
  unfold new. destruct init as [|c r]; [apply H|].
  each_byte c; apply H.
Qed.

Lemma decoded_delete (D : TextDecoder) (name : string) (l : t) :
  decoded D l -> decoded D (delete name l).
Proof.
  unfold decoded, delete. intros H.
  apply Forall_forall. intros p Hp. apply filter_In in Hp.
  rewrite Forall_forall in H. now apply H.
Qed.

Lemma decoded_set (D : TextDecoder) (name value : string) (l : t) :
  D name = name -> D value = value -> decoded D l -> decoded D (set name value l).
Proof.
  intros Hn Hv H. induction H as [|[n v] rest Hp Hrest IH]; simpl.
  - constructor; [split; assumption|constructor].
  - destruct (String.eqb n name).
    + constructor; [split; assumption|]. now apply decoded_delete.
    + constructor; [exact Hp|exact IH].
Qed.

Lemma map_decode_tuple_decoded (D : TextDecoder) (l : t) :
  decoded D l -> map (decode_tuple D) l = l.
Proof.
  intros H. induction H as [|[n v] rest [Hn Hv] Hrest IH]; [reflexivity|].
  simpl in *. unfold decode_tuple at 1. simpl. now rewrite Hn, Hv, IH.
Qed.

(** Decoded parameters come back from the address as they went in. *)
Lemma new_search_of_decoded (D : TextDecoder) (l : t) :
  decoded D l -> new D (search_of l) = l.
Proof.
  intros H. rewrite URLFacts.new_search_of. now apply map_decode_tuple_decoded.
Qed.

Lemma get_set_other (name other value : string) (l : t) :
  other <> name -> get other (set name value l) = get other l.
Proof.
  intros Hne. apply String.eqb_neq in Hne.
  assert (Hdel : forall l', get other (delete name l') = get other l').
  { induction l' as [|[n v] rest IH]; [reflexivity|]. simpl.
    destruct (String.eqb n name) eqn:E; simpl.
    - apply String.eqb_eq in E. subst n. rewrite String.eqb_sym in Hne.
      now rewrite Hne.
    - destruct (String.eqb n other); [reflexivity|exact IH]. }
  induction l as [|[n v] rest IH]; simpl.
  - rewrite String.eqb_sym in Hne. now rewrite Hne.
  - destruct (String.eqb n name) eqn:E; simpl.
    + apply String.eqb_eq in E. subst n. rewrite String.eqb_sym in Hne.
      rewrite Hne. apply Hdel.
    + destruct (String.eqb n other); [reflexivity|exact IH].
Qed.

Lemma get_delete_other (name other : string) (l : t) :
  other <> name -> get other (delete name l) = get other l.
Proof.
  intros Hne. apply String.eqb_neq in Hne.
  induction l as [|[n v] rest IH]; [reflexivity|]. simpl.
  destruct (String.eqb n name) eqn:E; simpl.
  - apply String.eqb_eq in E. subst n. rewrite String.eqb_sym in Hne.
    now rewrite Hne.
  - destruct (String.eqb n other); [reflexivity|exact IH].
Qed.

Lemma occurrences_delete (name : string) (l : t) :
  occurrences name (delete name l) = 0%nat.
Proof.
  unfold occurrences, delete.
  induction l as [|[n v] rest IH]; [reflexivity|]. simpl.
  destruct (String.eqb n name) eqn:E; simpl; [exact IH|]. now rewrite E.
Qed.

Lemma occurrences_set (name value : string) (l : t) :
  occurrences name (set name value l) = 1%nat.
Proof.
  induction l as [|[n v] rest IH].
  - unfold occurrences. simpl. now rewrite String.eqb_refl.
  - simpl. destruct (String.eqb n name) eqn:E.
    + unfold occurrences. simpl. rewrite String.eqb_refl. simpl.
      f_equal. apply occurrences_delete.
    + unfold occurrences in *. simpl. now rewrite E.
Qed.

Lemma delete_none (name : string) (l : t) :
  occurrences name l = 0%nat -> delete name l = l.
Proof.
  unfold occurrences, delete.
  induction l as [|[n v] rest IH]; [reflexivity|]. simpl.
  destruct (String.eqb n name); simpl; [discriminate|].
  intros H. now rewrite IH.
Qed.

Lemma delete_delete (name : string) (l : t) :
  delete name (delete name l) = delete name l.
Proof. apply delete_none, occurrences_delete. Qed.

Lemma delete_set (name value : string) (l : t) :
  delete name (set name value l) = delete name l.
Proof.
  induction l as [|[n v] rest IH]; simpl.
  - unfold delete. simpl. now rewrite String.eqb_refl.
  - destruct (String.eqb n name) eqn:E.
    + unfold delete at 1. simpl. rewrite String.eqb_refl. simpl.
      apply delete_delete.
    + unfold delete in *. simpl. rewrite E. simpl. now rewrite IH.
Qed.

Lemma set_set (name v1 v2 : string) (l : t) :
  set name v2 (set name v1 l) = set name v2 l.
Proof.
  induction l as [|[n v] rest IH]; simpl.
  - now rewrite String.eqb_refl.
  - destruct (String.eqb n name) eqn:E; simpl.
    + rewrite String.eqb_refl. now rewrite delete_delete.
    + now rewrite E, IH.
Qed.

End URLMore.

(* ===================================================================== *)
(** * More on submitting *)
(* ===================================================================== *)

Section SubmitMore.

Variable env : Env.

Lemma truthy_not_empty (s : string) : truthy s = true <-> s <> "".
Proof.
  destruct s; simpl; split; intros H; try reflexivity; try discriminate.
  now contradiction H.
Qed.

Lemma truthy_length (s : string) :
  (truthy s && (0 <? String.length s)%nat)%bool = truthy s.
Proof. destruct s; reflexivity. Qed.

Lemma connecting_unfold w :
  connecting w
  = {| app := {| isSearching := true; npub := npub (app w);
                 includeNotesFromFollowedUsers := includeNotesFromFollowedUsers (app w);
                 query := query (app w); fromDate := fromDate (app w);
                 toDate := toDate (app w);
                 events := events (app w);
                 currentDataLength := currentDataLength (app w) |};
       location := location w;
       toasts := toasts w;
       console := console w;
       network := (network w ++ [RelayInit RELAY_URL]) ++ [RelayConnect] |}.
Proof. reflexivity. Qed.

(** X1: the note query asks for text notes only; it carries the search text
    exactly when the query field is not empty, and a bound exactly when the
    date field of that bound is not empty. *)
Theorem note_query_shape w fs f :
  In (RelayList fs) (issued (handleSubmit env) w) ->
  In f fs ->
  kinds f = [1%Z]
  /\ search f = (if truthy (query (app w)) then Some (query (app w)) else None)
  /\ (since f = None <-> fromDate (app w) = "")
  /\ (until f = None <-> toDate (app w) = "").
Proof.
  intros Hq Hf.
  destruct (@handleSubmit_note_query env w fs Hq) as (key & _ & _ & ->).
  destruct Hf as [<-|[]].
  unfold submitted_filter, note_filter. cbn [kinds search since until].
  rewrite truthy_length.
  split; [reflexivity|]. split; [reflexivity|]. split.
  - destruct (fromDate (app w)); simpl; split; intros H;
      try reflexivity; discriminate H.
  - destruct (toDate (app w)); simpl; split; intros H;
      try reflexivity; discriminate H.
Qed.

(** X2: a submission whose identifier decodes to a key opens one
    connection; once connected it fetches the contact list of that key first,
    if the followed authors are wanted, then asks for the notes once, then
    closes. *)
Theorem session_requests w key :
  npub (app w) <> "" ->
  nip19_decode env (npub (app w)) = Returns {| type := "npub"; data := key |} ->
  key <> "" ->
  issued (handleSubmit env) w
  = [RelayInit "wss://relay.nostr.band"; RelayConnect]
    ++ match relay_connect env with
       | Connected =>
         (if includeNotesFromFollowedUsers (app w)
          then [RelayGet {| kinds := [3%Z]; authors := [Some key];
                            search := None; since := None; until := None |}]
          else [])
         ++ [RelayList [submitted_filter env (app w) key]; RelayClose]
       | _ => []
       end.
Proof.
  intros Hn Hd Hk. apply truthy_not_empty in Hn. apply truthy_not_empty in Hk.
  now rewrite (@handleSubmit_session env w key Hn Hd Hk).
Qed.

(** X3: while the connection neither opens nor fails, the busy indicator
    stays set: the submission has marked the page as searching, asked for the
    connection, and changed nothing else. *)
Theorem pending_keeps_busy w key :
  npub (app w) <> "" ->
  nip19_decode env (npub (app w)) = Returns {| type := "npub"; data := key |} ->
  key <> "" ->
  relay_connect env = Pending ->
  isSearching (app (exec (handleSubmit env) w)) = true
  /\ results (exec (handleSubmit env) w) = results w
  /\ cursor (exec (handleSubmit env) w) = cursor w
  /\ toasts (exec (handleSubmit env) w) = toasts w
  /\ issued (handleSubmit env) w = [RelayInit RELAY_URL; RelayConnect].
Proof.
  intros Hn Hd Hk Hc.
  rewrite (@session_requests w key Hn Hd Hk), Hc.
  apply truthy_not_empty in Hn. apply truthy_not_empty in Hk.
  rewrite handleSubmit_exec, Hn, Hd, Hc. cbn [type data negb].
  rewrite String.eqb_refl, Hk. repeat split.
Qed.

(** X4: when the session completes, the results are the answer of the relay
    in its order, whatever was shown before; the first five of them are
    visible (all, if fewer); the busy indicator is off; and the notice of an
    empty answer is shown exactly when the answer is empty. *)
Theorem submit_installs_results w key :
  npub (app w) <> "" ->
  nip19_decode env (npub (app w)) = Returns {| type := "npub"; data := key |} ->
  key <> "" ->
  relay_connect env = Connected ->
  let w' := exec (handleSubmit env) w in
  results w' = relay_list env [submitted_filter env (app w) key]
  /\ visible (app w') = firstn 5 (results w')
  /\ isSearching (app w') = false
  /\ new_toasts (handleSubmit env) w
     = match results w' with
       | [] => [{| title := "no events found"; status := "info" |}]
       | _ :: _ => []
       end.
Proof.
  intros Hn Hd Hk Hc w'.
  apply truthy_not_empty in Hn. apply truthy_not_empty in Hk.
  assert (E : w' = exec (onConnect env (app w) key) (connecting w)).
  { unfold w'. rewrite handleSubmit_exec, Hn, Hd, Hc. cbn [type data negb].
    now rewrite String.eqb_refl, Hk. }
  unfold new_toasts. fold w'. rewrite E, onConnect_exec.
  unfold results, visible, fetched. cbn [app events currentDataLength isSearching toasts].
  split; [reflexivity|]. split.
  { set (l := relay_list env [submitted_filter env (app w) key]).
    destruct (Nat.min_spec 5 (List.length l)) as [[_ ->]|[Hl ->]]; [reflexivity|].
    rewrite firstn_all. symmetry. apply firstn_all2. lia. }
  split; [reflexivity|].
  rewrite connecting_unfold. cbn [toasts]. rewrite skipn_length_app.
  destruct (relay_list env [submitted_filter env (app w) key]); reflexivity.
Qed.

(** X5: a submission never touches the address nor the form, whatever the
    identifier and however the connection ends. *)
Theorem handleSubmit_keeps_form w :
  location (exec (handleSubmit env) w) = location w
  /\ same_form (app (exec (handleSubmit env) w)) (app w).
Proof.
  rewrite handleSubmit_exec.
  assert (Hsame : forall s s' : AppState,
    npub s = npub s' -> query s = query s' -> fromDate s = fromDate s' ->
    toDate s = toDate s' ->
    includeNotesFromFollowedUsers s = includeNotesFromFollowedUsers s' ->
    same_form s s').
  { intros s s' H1 H2 H3 H4 H5. split; [intros []; assumption|assumption]. }
  destruct (negb (truthy (npub (app w)))); [split; [|apply Hsame]; reflexivity|].
  destruct (nip19_decode env (npub (app w))) as [r|[m|v]];
    try (split; [|apply Hsame]; reflexivity).
  destruct (String.eqb (type r) "npub" && truthy (data r))%bool;
    [|split; [|apply Hsame]; reflexivity].
  destruct (relay_connect env).
  - rewrite onConnect_exec. split; [|apply Hsame]; reflexivity.
  - split; [|apply Hsame]; reflexivity.
  - split; [|apply Hsame]; reflexivity.
Qed.

(** X6: [decodeNpub] returns a key exactly when the payload is of kind
    ["npub"], and then it is the payload and nothing is shown. *)
Theorem decodeNpub_returns_key s w key :
  (fst (decodeNpub env s w) = Some key
   <-> nip19_decode env s = Returns {| type := "npub"; data := key |})
  /\ (fst (decodeNpub env s w) = Some key -> snd (decodeNpub env s w) = w).
Proof.
  rewrite decodeNpub_cases.
  destruct (nip19_decode env s) as [[ty da]|[m|v]]; cbn [type data fst snd].
  - destruct (String.eqb ty "npub") eqn:E; cbn [fst snd].
    + apply String.eqb_eq in E. subst ty. split; [|reflexivity].
      split; [intros H; injection H as ->; reflexivity|intros H; now injection H as ->].
    + apply String.eqb_neq in E. split; [|discriminate].
      split; [discriminate|intros H; injection H as H1 _; contradiction].
  - split; [split|]; discriminate.
  - split; [split|]; discriminate.
Qed.

(** X7: a payload of kind ["npub"] that is the empty string stops the
    submission like no payload at all: nothing is shown, nothing is asked,
    nothing changes. *)
Theorem empty_key_aborts w :
  npub (app w) <> "" ->
  nip19_decode env (npub (app w)) = Returns {| type := "npub"; data := "" |} ->
  exec (handleSubmit env) w = w.
Proof.
  intros Hn Hd. apply truthy_not_empty in Hn.
  rewrite handleSubmit_exec, Hn, Hd. reflexivity.
Qed.

End SubmitMore.

Section SubmitEdges.

Variable env : Env.

Lemma handleSubmit_new_toasts w :
  new_toasts (handleSubmit env) w =
  if negb (truthy (npub (app w))) then
    [{| title := "npub is required"; status := "warning" |}]
  else
    match nip19_decode env (npub (app w)) with
    | Returns r =>
      if (String.eqb (type r) "npub" && truthy (data r))%bool then
        match relay_connect env with
        | Connected =>
          if (List.length (fetched env (app w) (data r)) =? 0)%nat
          then [{| title := "no events found"; status := "info" |}] else []
        | _ => []
        end
      else []
    | Throws (ErrorInstance message) => [{| title := message; status := "error" |}]
    | Throws (OtherValue _) => []
    end.
Proof.
  unfold new_toasts. rewrite handleSubmit_exec.
  pose proof (skipn_length_self (toasts w)) as Hnil.
  assert (Hone : forall t, skipn (List.length (toasts w)) (toasts (with_toast w t)) = [t])
    by (intros t; apply skipn_length_app).
  destruct (negb (truthy (npub (app w)))); [apply Hone|].
  destruct (nip19_decode env (npub (app w))) as [r|[m|v]];
    [|apply Hone|exact Hnil].
  destruct (String.eqb (type r) "npub" && truthy (data r))%bool; [|exact Hnil].
  destruct (relay_connect env).
  - rewrite onConnect_exec. cbn [toasts]. rewrite connecting_unfold. cbn [toasts].
    apply skipn_length_app.
  - exact Hnil.
  - exact Hnil.
Qed.

(** X8: a submission shows at most one message, and each message has one
    cause: the warning an empty identifier, an error an [Error] thrown by the
    decoder whose message it shows, the notice a completed session with an
    empty answer. *)
Theorem toast_has_one_cause w :
  (List.length (new_toasts (handleSubmit env) w) <= 1)%nat
  /\ forall t, In t (new_toasts (handleSubmit env) w) ->
       (t = {| title := "npub is required"; status := "warning" |}
        /\ npub (app w) = "")
       \/ (status t = "error" /\ npub (app w) <> ""
           /\ nip19_decode env (npub (app w)) = Throws (ErrorInstance (title t)))
       \/ (t = {| title := "no events found"; status := "info" |}
           /\ npub (app w) <> ""
           /\ relay_connect env = Connected
           /\ results (exec (handleSubmit env) w) = []).
Proof.
  rewrite handleSubmit_new_toasts, handleSubmit_exec.
  destruct (truthy (npub (app w))) eqn:Hn; cbn [negb].
  2:{ split; [simpl; lia|]. intros t [<-|[]]. left. split; [reflexivity|].
      destruct (npub (app w)); [reflexivity|discriminate]. }
  apply truthy_not_empty in Hn.
  destruct (nip19_decode env (npub (app w))) as [r|[m|v]].
  - destruct (String.eqb (type r) "npub" && truthy (data r))%bool;
      [|split; [simpl; lia|intros t []]].
    destruct (relay_connect env); try (split; [simpl; lia|intros t []]).
    rewrite onConnect_exec. unfold results. cbn [app events].
    destruct (fetched env (app w) (data r)) as [|e l]; simpl.
    + split; [lia|]. intros t [<-|[]]. right. right. repeat split. exact Hn.
    + split; [lia|intros t []].
  - split; [simpl; lia|]. intros t [<-|[]]. right. left. repeat split. exact Hn.
  - split; [simpl; lia|intros t []].
Qed.

(** X9: the dates are not validated.  Whatever the two date fields hold, the
    note query is issued; a date the engine cannot read gives the bound
    [NaN]; and a from-date later than the to-date gives a lower bound above
    the upper bound. *)
Theorem dates_are_not_validated w key :
  npub (app w) <> "" ->
  nip19_decode env (npub (app w)) = Returns {| type := "npub"; data := key |} ->
  key <> "" ->
  relay_connect env = Connected ->
  let f := submitted_filter env (app w) key in
  In (RelayList [f]) (issued (handleSubmit env) w)
  /\ (fromDate (app w) <> "" ->
      JSDate.getTime (Date_parse_other env) (fromDate (app w)) = None ->
      since f = Some NaN)
  /\ (toDate (app w) <> "" ->
      JSDate.getTime (Date_parse_other env) (toDate (app w)) = None ->
      until f = Some NaN)
  /\ (forall y1 m1 d1 y2 m2 d2,
      JSDate.legal_date y1 m1 d1 = true ->
      JSDate.legal_date y2 m2 d2 = true ->
      fromDate (app w) = JSDate.format_date_only y1 m1 d1 ->
      toDate (app w) = JSDate.format_date_only y2 m2 d2 ->
      (JSDate.DayNumber y2 m2 d2 < JSDate.DayNumber y1 m1 d1)%Z ->
      exists lower upper,
        since f = Some (number_of_Z lower) /\ until f = Some (number_of_Z upper)
        /\ (upper < lower)%Z).
Proof.
  intros Hn Hd Hk Hc f.
  split.
  { rewrite (@session_requests env w key Hn Hd Hk), Hc.
    apply in_or_app. right. apply in_or_app. right. left. reflexivity. }
  unfold f, submitted_filter, note_filter. cbn [since until].
  split; [|split].
  - intros Hne Ht. apply truthy_not_empty in Hne. rewrite Hne.
    unfold convertDateToUnixTimestamp. now rewrite Ht.
  - intros Hne Ht. apply truthy_not_empty in Hne. rewrite Hne.
    unfold convertDateToUnixTimestamp. now rewrite Ht.
  - intros y1 m1 d1 y2 m2 d2 L1 L2 -> -> Hlt.
    rewrite !DateFacts.format_date_only_truthy.
    rewrite !DateFacts.convertDateToUnixTimestamp_date_only by assumption.
    eexists. eexists. split; [reflexivity|]. split; [reflexivity|]. lia.
Qed.

(** X10: when the relay has no contact list for the key, the followed
    authors are none: the note query is still issued, for the decoded key
    alone. *)
Theorem missing_contact_list w key :
  npub (app w) <> "" ->
  nip19_decode env (npub (app w)) = Returns {| type := "npub"; data := key |} ->
  key <> "" ->
  relay_connect env = Connected ->
  includeNotesFromFollowedUsers (app w) = true ->
  relay_get env (contact_filter key) = None ->
  issued (handleSubmit env) w
  = [RelayInit RELAY_URL; RelayConnect; RelayGet (contact_filter key);
     RelayList [submitted_filter env (app w) key]; RelayClose]
  /\ authors (submitted_filter env (app w) key) = [Some key].
Proof.
  intros Hn Hd Hk Hc Hi Hg.
  rewrite (@session_requests env w key Hn Hd Hk), Hc, Hi.
  split; [reflexivity|].
  rewrite authors_submitted_filter, Hi. unfold contacts_of. now rewrite Hg.
Qed.

End SubmitEdges.

(* ===================================================================== *)
(** * More on revealing *)
(* ===================================================================== *)

Lemma firstn_plus {A : Type} (c k : nat) (l : list A) :
  firstn (c + k) l = firstn c l ++ firstn k (skipn c l).
Proof.
  revert l. induction c as [|c IH]; intros l; [reflexivity|].
  destruct l as [|x l]; simpl.
  - now rewrite firstn_nil.
  - now rewrite IH.
Qed.

(** X18: [k] calls after an answer of [n] notes was installed, exactly
    min(5 (k + 1), n) notes are shown, and the scroller stops asking for more
    exactly when 5 (k + 1) reaches [n]. *)
Theorem reveal_count env form key w k :
  let w0 := exec (onConnect env form key) w in
  let n := List.length (results w0) in
  List.length (visible (app (reveal k w0))) = Nat.min (5 * (k + 1)) n
  /\ (hasMore (app (reveal k w0)) = false <-> (n <= 5 * (k + 1))%nat).
Proof.
  intros w0 n.
  destruct (onConnect_installs env form key w) as [Hr Hc]. fold w0 in Hr, Hc.
  assert (Hn : n = List.length (fetched env form key)) by (unfold n; now rewrite Hr).
  assert (Hle : (cursor w0 <= List.length (results w0))%nat)
    by (fold n; rewrite Hc, <- Hn; lia).
  pose proof (reveal_cursor k w0 Hle) as Hk. fold n in Hk.
  rewrite Hc, <- Hn in Hk.
  pose proof (reveal_results k w0) as Hres.
  unfold visible, hasMore.
  change (currentDataLength (app (reveal k w0))) with (cursor (reveal k w0)).
  change (events (app (reveal k w0))) with (results (reveal k w0)).
  rewrite Hres, Hk. fold n. split.
  - rewrite length_firstn. fold n. lia.
  - rewrite Nat.ltb_ge. lia.
Qed.

(** X19: a call of [updateCurrentDataLength] keeps what is shown and adds
    the next notes below it, five at most, in the order of the results. *)
Theorem reveal_appends w :
  visible (app (exec updateCurrentDataLength w))
  = visible (app w) ++ firstn 5 (skipn (cursor w) (results w))
  /\ (List.length (visible (app (exec updateCurrentDataLength w)))
      <= List.length (visible (app w)) + 5)%nat.
Proof.
  assert (E : visible (app (exec updateCurrentDataLength w))
              = visible (app w) ++ firstn 5 (skipn (cursor w) (results w))).
  { unfold visible.
    change (events (app (exec updateCurrentDataLength w))) with (results w).
    change (currentDataLength (app (exec updateCurrentDataLength w)))
      with (cursor (exec updateCurrentDataLength w)).
    change (currentDataLength (app w)) with (cursor w).
    change (events (app w)) with (results w).
    rewrite updateCurrentDataLength_unfold, <- firstn_plus.
    destruct (Nat.ltb_spec (cursor w + 5) (List.length (results w))) as [Hlt|Hge];
      [reflexivity|].
    rewrite firstn_all. symmetry. now apply firstn_all2. }
  split; [exact E|].
  rewrite E, length_app, length_firstn. lia.
Qed.

(* ===================================================================== *)
(** * More on the form and the address *)
(* ===================================================================== *)

Section AddressMore.

Import URLSearchParams.

Variable D : TextDecoder.
Variable O : Origin.
Hypothesis D_lawful : lawful_decoder D.

Lemma decoded_address w : decoded D (address_params D w).
Proof. now apply URLMore.decoded_new. Qed.



Lemma field_key_text f : D (field_key f) = field_key f.
Proof. apply D_lawful. destruct f; reflexivity. Qed.

Lemma address_after_field_change f value w :
  D value = value ->
  refused O (pathname (location w)) = false ->
  address_params D (exec (onFieldChange D O f value) w)
  = if truthy value
    then set (field_key f) value (address_params D w)
    else delete (field_key f) (address_params D w).
Proof.
  intros Hv Hok. unfold address_params at 1.
  rewrite (@onFieldChange_search D O f value w Hok).
  rewrite (@decode_text_scalar D D_lawful value Hv).
  apply URLMore.new_search_of_decoded.
  destruct (truthy value).
  - apply URLMore.decoded_set; [apply field_key_text|exact Hv|apply decoded_address].
  - apply URLMore.decoded_delete, decoded_address.
Qed.


(** X11: where [replaceState] throws, the change handler of a text field
    throws and changes nothing.  Elsewhere a change to a value that is well-formed text sets the
    field and rewrites the parameters of the address by one [set] of its key,
    or one [delete] for the empty value, and leaves the other fields, the
    results, the messages and the requests as they were, and the path too
    unless it begins with two slashes. *)
Theorem field_change_rewrites_address f value w :
  D value = value ->
  let w' := exec (onFieldChange D O f value) w in
  (refused O (pathname (location w)) = true ->
   onFieldChange D O f value w = (Threw, w))
  /\ (refused O (pathname (location w)) = false ->
      address_params D w'
      = (if truthy value
         then set (field_key f) value (address_params D w)
         else delete (field_key f) (address_params D w))
      /\ field_value f (app w') = value
      /\ (scheme_relative (pathname (location w)) = false ->
          pathname (location w') = pathname (location w))
      /\ (forall g, g <> f -> field_value g (app w') = field_value g (app w))
      /\ includeNotesFromFollowedUsers (app w') = includeNotesFromFollowedUsers (app w)
      /\ isSearching (app w') = isSearching (app w)
      /\ results w' = results w
      /\ cursor w' = cursor w
      /\ toasts w' = toasts w
      /\ network w' = network w).
Proof.
  intros Hv w'. split; [apply onFieldChange_threw|].
  intros Hok. split; [now apply address_after_field_change|].
  split; [now apply onFieldChange_value|].
  split.
  { intros Hp. unfold w'. rewrite onFieldChange_exec, Hok. cbn [location pathname].
    now apply path_kept. }
  split; [intros g Hg; now apply onFieldChange_others|].
  unfold w'. rewrite onFieldChange_exec, Hok. destruct f; repeat split.
Qed.

(** X12: after a change of a text field to a value that is well-formed
    text, on a page where [replaceState] does not throw, the address holds
    the key of the field once if the value is not empty and not at all if it
    is, however often it held it before; every other parameter of the
    address, known to the form or not, is kept with its value and its
    place. *)
Theorem field_change_keeps_other_parameters f value w :
  D value = value ->
  refused O (pathname (location w)) = false ->
  let w' := exec (onFieldChange D O f value) w in
  occurrences (field_key f) (address_params D w')
  = (if truthy value then 1%nat else 0%nat)
  /\ delete (field_key f) (address_params D w')
     = delete (field_key f) (address_params D w)
  /\ (forall name, name <> field_key f ->
      get name (address_params D w') = get name (address_params D w)).
Proof.
  intros Hv Hok w'. unfold w'. rewrite (@address_after_field_change f value w Hv Hok).
  destruct (truthy value).
  - split; [apply URLMore.occurrences_set|].
    split; [apply URLMore.delete_set|].
    intros name Hne. now apply URLMore.get_set_other.
  - split; [apply URLMore.occurrences_delete|].
    split; [apply URLMore.delete_delete|].
    intros name Hne. now apply URLMore.get_delete_other.
Qed.


(** X14: on a page whose path does not begin with two slashes, and for
    values that are well-formed text, typing a value over a value that was
    not empty, or clearing a field twice over, leaves the page as the last
    change alone would. *)
Theorem field_change_last_wins f v1 v2 w :
  D v1 = v1 -> D v2 = v2 ->
  scheme_relative (pathname (location w)) = false ->
  v1 <> "" \/ v2 = "" ->
  exec (onFieldChange D O f v2) (exec (onFieldChange D O f v1) w)
  = exec (onFieldChange D O f v2) w.
Proof.
  intros H1 H2 Hp Hcase.
  destruct (path_kept O _ Hp) as [Hok Hkept].
  assert (Hp1 : pathname (location (exec (onFieldChange D O f v1) w))
                = pathname (location w)).
  { rewrite onFieldChange_exec, Hok. exact Hkept. }
  rewrite (onFieldChange_exec D O f v2 (exec (onFieldChange D O f v1) w)).
  rewrite Hp1, Hok.
  change (new D (search_string (location (exec (onFieldChange D O f v1) w))))
    with (address_params D (exec (onFieldChange D O f v1) w)).
  rewrite (@address_after_field_change f v1 w H1 Hok).
  rewrite (onFieldChange_exec D O f v2 w), Hok.
  rewrite (@decode_text_scalar D D_lawful v2 H2).
  change (new D (search_string (location w))) with (address_params D w).
  assert (Hl : (if truthy v2
                then set (field_key f) v2
                       (if truthy v1 then set (field_key f) v1 (address_params D w)
                        else delete (field_key f) (address_params D w))
                else delete (field_key f)
                       (if truthy v1 then set (field_key f) v1 (address_params D w)
                        else delete (field_key f) (address_params D w)))
               = (if truthy v2 then set (field_key f) v2 (address_params D w)
                  else delete (field_key f) (address_params D w))).
  { destruct v2 as [|c2 v2]; cbn [truthy URLSearchParams.is_empty negb].
    - destruct (truthy v1); [apply URLMore.delete_set|apply URLMore.delete_delete].
    - destruct Hcase as [Hne|Hempty]; [|discriminate].
      apply truthy_not_empty in Hne. rewrite Hne. apply URLMore.set_set. }
  rewrite Hl. rewrite (onFieldChange_exec D O f v1 w), Hok.
  cbn [toasts console network]. f_equal. destruct f; reflexivity.
Qed.

End AddressMore.

(* ===================================================================== *)
(** * What holds of the page at all times *)
(* ===================================================================== *)

Lemma run_snoc (D : TextDecoder) (O : Origin) (actions : list Action) (a : Action)
    (w : World) :
  run D O (actions ++ [a]) w = perform D O a (run D O actions w).
Proof. unfold run. now rewrite fold_left_app. Qed.



Lemma same_form_sym (s1 s2 : AppState) : same_form s1 s2 -> same_form s2 s1.
Proof. intros [H1 H2]. split; [intros f; now rewrite H1|congruence]. Qed.


Section Always.

Import URLSearchParams.

Variable D : TextDecoder.
Variable O : Origin.


Lemma cursor_ok_same (w w' : World) :
  cursor w' = cursor w -> results w' = results w -> cursor_ok w -> cursor_ok w'.
Proof. unfold cursor_ok. intros -> ->. auto. Qed.

Lemma cursor_ok_installed env form key w :
  cursor_ok (exec (onConnect env form key) w).
Proof.
  destruct (onConnect_installs env form key w) as [Hr Hc].
  unfold cursor_ok. rewrite Hr, Hc.
  destruct (Nat.min_spec 5 (List.length (fetched env form key))) as [[Hlt ->]|[Hge ->]].
  - split; [lia|]. right. reflexivity.
  - split; [lia|]. left. reflexivity.
Qed.

Lemma cursor_ok_perform (a : Action) (w : World) :
  cursor_ok w -> cursor_ok (perform D O a w).
Proof.
  intros Hw. destruct a as [env|env form key| | |f v|]; simpl.
  - rewrite handleSubmit_exec.
    destruct (negb (truthy (npub (app w)))); [exact Hw|].
    destruct (nip19_decode env (npub (app w))) as [r|[m|v]]; try exact Hw.
    destruct (String.eqb (type r) "npub" && truthy (data r))%bool; [|exact Hw].
    destruct (relay_connect env); [apply cursor_ok_installed|exact Hw|exact Hw].
  - apply cursor_ok_installed.
  - exact Hw.
  - destruct Hw as [Hle Hmod]. unfold cursor_ok.
    rewrite updateCurrentDataLength_results, updateCurrentDataLength_unfold.
    destruct (Nat.ltb_spec (cursor w + 5) (List.length (results w))) as [Hlt|Hge].
    + split; [lia|]. right. destruct Hmod as [He|Hm]; [lia|].
      rewrite <- (Nat.Div0.add_mod_idemp_l (cursor w) 5 5), Hm. reflexivity.
    + split; [lia|]. left. reflexivity.
  - rewrite onFieldChange_exec.
    destruct (refused O (pathname (location w))); [exact Hw|].
    apply (cursor_ok_same (w := w)); [destruct f; reflexivity|destruct f; reflexivity|exact Hw].
  - rewrite onIncludeFollowedChange_exec.
    destruct (refused O (pathname (location w))); exact Hw.
Qed.

(** X15: at all times the cursor is within the results, so that the notes
    shown are as many as the cursor says; it is a multiple of five unless
    everything is shown; and the scroller asks for more exactly while
    something is hidden.  This holds after any sequence of submissions,
    late listeners, scrolls and changes of the form, from a page loaded at
    any address. *)
Theorem cursor_always_within_results loc actions :
  let w := run D O actions (load D loc) in
  cursor_ok w
  /\ List.length (visible (app w)) = cursor w
  /\ (hasMore (app w) = false <-> cursor w = List.length (results w)).
Proof.
  intros w.
  assert (H : cursor_ok w).
  { unfold w. induction actions as [|a rest IH] using rev_ind.
    - split; [apply le_n|left; reflexivity].
    - rewrite run_snoc. now apply cursor_ok_perform. }
  split; [exact H|]. destruct H as [Hle _].
  unfold visible, hasMore.
  change (currentDataLength (app w)) with (cursor w).
  change (events (app w)) with (results w).
  split; [rewrite length_firstn; lia|]. rewrite Nat.ltb_ge. lia.
Qed.

Hypothesis D_lawful : lawful_decoder D.













End Always.

Module CalendarFacts.
Import JSDate JSCalendar.
Local Open Scope Z_scope.

Example year_of_epoch : YearFromDay 0 = 1970. Proof. reflexivity. Qed.
Example year_before_epoch : YearFromDay (-1) = 1969. Proof. reflexivity. Qed.
Example date_before_epoch : (MonthFromDay (-1), DateFromDay (-1)) = (11, 31).
Proof. reflexivity. Qed.
Example leap_day_2000 : (YearFromDay 11016, MonthFromDay 11016, DateFromDay 11016) = (2000, 1, 29).
Proof. reflexivity. Qed.
Example year_one : YearFromDay (DayNumber 1 1 1) = 1. Proof. reflexivity. Qed.
Example year_9999 : (YearFromDay (DayNumber 9999 12 31), MonthFromDay (DayNumber 9999 12 31), DateFromDay (DayNumber 9999 12 31)) = (9999, 11, 31).
Proof. reflexivity. Qed.

Lemma floor_step (z k : Z) :
  0 < k -> (z + 1) / k = z / k + (if (z + 1) mod k =? 0 then 1 else 0).
Proof.
  intros Hk. destruct ((z + 1) mod k =? 0) eqn:E.
  - apply Z.eqb_eq in E. 
    pose proof (Z.div_mod (z + 1) k ltac:(lia)) as H1.
    pose proof (Z.div_mod z k ltac:(lia)) as H2.
    pose proof (Z.mod_pos_bound z k Hk) as H3.
    rewrite E in H1. nia.
  - apply Z.eqb_neq in E.
    pose proof (Z.div_mod (z + 1) k ltac:(lia)) as H1.
    pose proof (Z.div_mod z k ltac:(lia)) as H2.
    pose proof (Z.mod_pos_bound z k Hk) as H3.
    pose proof (Z.mod_pos_bound (z + 1) k Hk) as H4.
    nia.
Qed.

Lemma mod_shift (y c k : Z) : 0 < k -> (y - c * k) mod k = y mod k.
Proof.
  intros Hk. replace (y - c * k) with (y + (- c) * k) by lia. now apply Z.mod_add; lia.
Qed.

Lemma mod_of_multiple (y n m : Z) :
  0 < n -> 0 < m -> y mod (n * m) = 0 -> y mod n = 0.
Proof.
  intros Hn Hm H.
  rewrite (Z.div_mod y (n * m)) by lia. rewrite H, Z.add_0_r.
  replace (n * m * (y / (n * m))) with ((m * (y / (n * m))) * n) by lia.
  now apply Z.mod_mul; lia.
Qed.

(** A year is followed by the next after 365 days, or 366 in a leap year. *)
Lemma DayFromYear_succ (y : Z) :
  DayFromYear (y + 1) = DayFromYear y + (if InLeapYear y then 366 else 365).
Proof.
  unfold DayFromYear, InLeapYear.
  replace (y + 1 - 1969) with ((y - 1969) + 1) by lia.
  replace (y + 1 - 1901) with ((y - 1901) + 1) by lia.
  replace (y + 1 - 1601) with ((y - 1601) + 1) by lia.
  rewrite !floor_step by lia.
  replace (y - 1969 + 1) with (y - 492 * 4) by lia.
  replace (y - 1901 + 1) with (y - 19 * 100) by lia.
  replace (y - 1601 + 1) with (y - 4 * 400) by lia.
  rewrite !mod_shift by lia.
  pose proof (@mod_of_multiple y 4 25 ltac:(lia) ltac:(lia)) as H100_4.
  pose proof (@mod_of_multiple y 100 4 ltac:(lia) ltac:(lia)) as H400_100.
  change (4 * 25) with 100 in H100_4. change (100 * 4) with 400 in H400_100.
  destruct (Z.eqb_spec (y mod 4) 0); destruct (Z.eqb_spec (y mod 100) 0);
    destruct (Z.eqb_spec (y mod 400) 0); cbn [andb orb negb]; lia.
Qed.

Lemma DayFromYear_epoch : DayFromYear 1970 = 0.
Proof. reflexivity. Qed.

Lemma DayFromYear_span (a : Z) (n : nat) :
  365 * Z.of_nat n <= DayFromYear (a + Z.of_nat n) - DayFromYear a <= 366 * Z.of_nat n.
Proof.
  induction n as [|n IH].
  - simpl. rewrite Z.add_0_r. lia.
  - replace (a + Z.of_nat (S n)) with (a + Z.of_nat n + 1) by lia.
    rewrite DayFromYear_succ. destruct (InLeapYear (a + Z.of_nat n)); lia.
Qed.

Lemma DayFromYear_monotone (a b : Z) : a <= b -> DayFromYear a <= DayFromYear b.
Proof.
  intros H. pose proof (DayFromYear_span a (Z.to_nat (b - a))) as Hs.
  rewrite Z2Nat.id in Hs by lia. replace (a + (b - a)) with b in Hs by lia. lia.
Qed.

Lemma year_search_correct (fuel : nat) :
  forall day y,
    DayFromYear y <= day -> day < DayFromYear (y + Z.of_nat fuel) ->
    DayFromYear (year_search fuel day y) <= day
    < DayFromYear (year_search fuel day y + 1).
Proof.
  induction fuel as [|fuel IH]; intros day y Hlo Hhi.
  - simpl in Hhi. rewrite Z.add_0_r in Hhi. lia.
  - simpl year_search. destruct (Z.leb_spec (DayFromYear (y + 1)) day) as [Hle|Hgt].
    + apply IH; [exact Hle|]. replace (y + 1 + Z.of_nat fuel) with (y + Z.of_nat (S fuel)) by lia.
      exact Hhi.
    + lia.
Qed.

(** [YearFromDay] is the year ECMAScript defines: the year that starts on
    or before the day and whose successor starts after it. *)
Lemma YearFromDay_spec (day : Z) :
  DayFromYear (YearFromDay day) <= day < DayFromYear (YearFromDay day + 1).
Proof.
  unfold YearFromDay.
  set (fuel := Z.abs day / 100000 + 2).
  assert (Hfuel : 0 <= fuel) by (unfold fuel; div_lia).
  apply year_search_correct; rewrite ?Z2Nat.id by exact Hfuel.
  - destruct (Z.leb_spec 0 day) as [Hpos|Hneg].
    + pose proof (DayFromYear_span 1970 (Z.to_nat (day / 366))) as Hs.
      rewrite Z2Nat.id in Hs by div_lia. rewrite DayFromYear_epoch in Hs. div_lia.
    + pose proof (DayFromYear_span (1970 + day / 365) (Z.to_nat (- (day / 365)))) as Hs.
      rewrite Z2Nat.id in Hs by div_lia.
      replace (1970 + day / 365 + - (day / 365)) with 1970 in Hs by lia.
      rewrite DayFromYear_epoch in Hs. div_lia.
  - destruct (Z.leb_spec 0 day) as [Hpos|Hneg].
    + pose proof (DayFromYear_span 1970 (Z.to_nat (day / 366 + fuel))) as Hs.
      rewrite Z2Nat.id in Hs by div_lia. rewrite DayFromYear_epoch in Hs.
      replace (1970 + day / 366 + fuel) with (1970 + (day / 366 + fuel)) by lia.
      unfold fuel in *. rewrite Z.abs_eq in * by lia. div_lia.
    + destruct (Z.leb_spec 0 (day / 365 + fuel)) as [Hk|Hk].
      * pose proof (DayFromYear_span 1970 (Z.to_nat (day / 365 + fuel))) as Hs.
        rewrite Z2Nat.id in Hs by lia. rewrite DayFromYear_epoch in Hs.
        replace (1970 + day / 365 + fuel) with (1970 + (day / 365 + fuel)) by lia. lia.
      * pose proof (DayFromYear_span (1970 + (day / 365 + fuel))
                      (Z.to_nat (- (day / 365 + fuel)))) as Hs.
        rewrite Z2Nat.id in Hs by lia.
        replace (1970 + (day / 365 + fuel) + - (day / 365 + fuel)) with 1970 in Hs by lia.
        rewrite DayFromYear_epoch in Hs.
        replace (1970 + day / 365 + fuel) with (1970 + (day / 365 + fuel)) by lia.
        unfold fuel in *. rewrite Z.abs_neq in * by lia. div_lia.
Qed.

Lemma YearFromDay_unique (day y : Z) :
  DayFromYear y <= day < DayFromYear (y + 1) -> YearFromDay day = y.
Proof.
  intros [Hlo Hhi]. pose proof (YearFromDay_spec day) as [Hl Hh].
  destruct (Z.lt_trichotomy (YearFromDay day) y) as [Hlt|[Heq|Hgt]]; [|exact Heq|].
  - pose proof (@DayFromYear_monotone (YearFromDay day + 1) y ltac:(lia)). lia.
  - pose proof (@DayFromYear_monotone (y + 1) (YearFromDay day) ltac:(lia)). lia.
Qed.

Lemma legal_date_bounds (y m d : Z) :
  legal_date y m d = true ->
  1 <= m <= 12 /\ 1 <= d <= DaysInMonth y m.
Proof.
  unfold legal_date. intros H.
  repeat (apply andb_prop in H; destruct H as [H ?]).
  repeat match goal with H : (_ <=? _) = true |- _ => apply Z.leb_le in H end.
  lia.
Qed.

(** The day of a calendar date, counted within its year. *)
Lemma DayNumber_within_year (y m d : Z) :
  1 <= m <= 12 -> 1 <= d <= DaysInMonth y m ->
  DayFromYear y <= DayNumber y m d < DayFromYear (y + 1).
Proof.
  intros Hm Hd. rewrite DayFromYear_succ. unfold DayNumber.
  unfold DaysInMonth in Hd. unfold DaysBeforeMonth.
  each_month m; destruct (InLeapYear y); simpl in *; lia.
Qed.

(** The calendar date of a day number is the date it was counted from. *)
Lemma date_of_DayNumber (y m d : Z) :
  1 <= m <= 12 -> 1 <= d <= DaysInMonth y m ->
  YearFromDay (DayNumber y m d) = y
  /\ MonthFromDay (DayNumber y m d) = m - 1
  /\ DateFromDay (DayNumber y m d) = d.
Proof.
  intros Hm Hd.
  assert (Hy : YearFromDay (DayNumber y m d) = y)
    by (apply YearFromDay_unique; now apply DayNumber_within_year).
  split; [exact Hy|].
  unfold DateFromDay, MonthFromDay, DayWithinYear. rewrite Hy.
  unfold DayNumber.
  replace (DayFromYear y + DaysBeforeMonth y m + (d - 1) - DayFromYear y)
    with (DaysBeforeMonth y m + (d - 1)) by lia.
  unfold DaysInMonth in Hd. unfold DaysBeforeMonth.
  each_month m; destruct (InLeapYear y); cbn [Z.eqb Pos.eqb orb] in Hd |- *;
    repeat match goal with
           | |- context [?a <? ?b] => destruct (Z.ltb_spec a b); try lia
           end;
    cbn [Z.eqb Pos.eqb]; split; lia.
Qed.

Lemma Day_within (day t : Z) :
  day * msPerDay <= t < (day + 1) * msPerDay -> Day t = day.
Proof. unfold Day, msPerDay. intros H. div_lia. Qed.

(** The day before a calendar date is a calendar date, with another day of
    the month. *)
Lemma DayNumber_pred (y m d : Z) :
  1 <= m <= 12 -> 1 <= d <= DaysInMonth y m ->
  exists y' m' d',
    1 <= m' <= 12 /\ 1 <= d' <= DaysInMonth y' m'
    /\ DayNumber y m d - 1 = DayNumber y' m' d' /\ d' <> d.
Proof.
  intros Hm Hd.
  destruct (Z.eq_dec d 1) as [->|Hd1].
  - destruct (Z.eq_dec m 1) as [->|Hm1].
    + exists (y - 1), 12, 31. split; [lia|]. split; [unfold DaysInMonth; simpl; lia|].
      split; [|lia]. unfold DayNumber.
      replace (DayFromYear y) with (DayFromYear (y - 1 + 1)) by (f_equal; lia).
      rewrite DayFromYear_succ. unfold DaysBeforeMonth. simpl Z.eqb. cbv iota.
      destruct (InLeapYear (y - 1)); lia.
    + exists y, (m - 1), (DaysInMonth y (m - 1)).
      assert (Hlen : 28 <= DaysInMonth y (m - 1) <= 31).
      { unfold DaysInMonth.
        repeat match goal with |- context [if ?b then _ else _] => destruct b end; lia. }
      split; [lia|]. split; [lia|]. split; [|lia].
      pose proof (@DateFacts.DayNumber_next_month y (m - 1) ltac:(lia)) as Hn.
      replace (m - 1 + 1) with m in Hn by lia. lia.
  - exists y, m, (d - 1). split; [lia|]. split; [lia|]. split; [|lia].
    unfold DayNumber. lia.
Qed.

Lemma DayNumber_range (y m d : Z) :
  legal_date y m d = true -> -719528 <= DayNumber y m d < 2932897.
Proof.
  intros H. pose proof H as Hl. apply legal_date_bounds in Hl. destruct Hl as [Hm Hd].
  pose proof (DayNumber_within_year y Hm Hd) as Hw.
  unfold legal_date in H.
  repeat (apply andb_prop in H; destruct H as [H ?]).
  repeat match goal with H : (_ <=? _) = true |- _ => apply Z.leb_le in H end.
  pose proof (@DayFromYear_monotone 0 y ltac:(lia)) as Hfirst.
  pose proof (@DayFromYear_monotone (y + 1) 10000 ltac:(lia)) as Hlast.
  change (DayFromYear 0) with (-719528) in Hfirst.
  change (DayFromYear 10000) with 2932897 in Hlast. lia.
Qed.
End CalendarFacts.

(* ===================================================================== *)
(** * The date shown on a note *)
(* ===================================================================== *)

Section Labels.

Import JSDate JSCalendar.
Local Open Scope Z_scope.

Variable L : Locale.

Example label_on_utc : formatCreateAtDate utc_english 1672531200 = "Jan 1"%string.
Proof. reflexivity. Qed.

Example label_behind_utc :
  formatCreateAtDate new_york_english 1672531200 = "Dec 31"%string.
Proof. reflexivity. Qed.

(** X20: a note is labelled with the day of the month of its creation in
    local time: if the local time of the timestamp falls on the calendar
    date [y]-[m]-[d], the label is the month name the locale gives, a space
    and [d] in decimal.  A timestamp beyond the range of [Date] is labelled
    "Invalid Date NaN". *)
Theorem label_shows_local_day unixTimestamp :
  (forall y m d,
      1 <= m <= 12 -> 1 <= d <= DaysInMonth y m ->
      Z.abs (unixTimestamp * 1000) <= 8640000000000000 ->
      DayNumber y m d * msPerDay
      <= unixTimestamp * 1000 + LocalTZA L (unixTimestamp * 1000)
      < (DayNumber y m d + 1) * msPerDay ->
      formatCreateAtDate L unixTimestamp
      = (month_short L (unixTimestamp * 1000) ++ " " ++ ToString_day d)%string)
  /\ (8640000000000000 < Z.abs (unixTimestamp * 1000) ->
      formatCreateAtDate L unixTimestamp = "Invalid Date NaN"%string).
Proof.
  unfold formatCreateAtDate, TimeClip. split.
  - intros y m d Hm Hd Hclip Hday.
    destruct (Z.leb_spec (Z.abs (unixTimestamp * 1000)) 8640000000000000); [|lia].
    rewrite (CalendarFacts.Day_within _ Hday).
    destruct (CalendarFacts.date_of_DayNumber y Hm Hd) as (_ & _ & ->). reflexivity.
  - intros Hout.
    destruct (Z.leb_spec (Z.abs (unixTimestamp * 1000)) 8640000000000000); [lia|].
    reflexivity.
Qed.

(** X21: the date filter and the date label.  For a legal calendar date
    the since bound is the midnight UTC of the date; a note created at that
    very second is labelled with the day of the date where local time is UTC
    or ahead of it, and with another day where local time is behind UTC. *)
Theorem label_at_date_bound env y m d :
  legal_date y m d = true ->
  let secs := 86400 * DayNumber y m d in
  let tza := LocalTZA L (secs * 1000) in
  convertDateToUnixTimestamp env (format_date_only y m d) = number_of_Z secs
  /\ (0 <= tza < msPerDay ->
      formatCreateAtDate L secs
      = (month_short L (secs * 1000) ++ " " ++ ToString_day d)%string)
  /\ (- msPerDay <= tza < 0 ->
      exists d', d' <> d /\ 1 <= d' <= 31
        /\ formatCreateAtDate L secs
           = (month_short L (secs * 1000) ++ " " ++ ToString_day d')%string).
Proof.
  intros Hlegal secs tza.
  pose proof (CalendarFacts.legal_date_bounds _ _ _ Hlegal) as [Hm Hd].
  pose proof (CalendarFacts.DayNumber_range _ _ _ Hlegal) as Hr.
  assert (Hclip : Z.abs (secs * 1000) <= 8640000000000000) by (unfold secs; lia).
  split; [now apply DateFacts.convertDateToUnixTimestamp_date_only|].
  split.
  - intros Htza.
    apply (proj1 (label_shows_local_day secs) y m d Hm Hd Hclip).
    fold tza. unfold secs, msPerDay in *. lia.
  - intros Htza.
    destruct (CalendarFacts.DayNumber_pred y Hm Hd) as (y' & m' & d' & Hm' & Hd' & Heq & Hne).
    exists d'. split; [exact Hne|]. split.
    { pose proof (DateFacts.DaysInMonth_bound y' m'). lia. }
    apply (proj1 (label_shows_local_day secs) y' m' d' Hm' Hd' Hclip).
    fold tza. rewrite <- Heq. unfold secs, msPerDay in *. lia.
Qed.

End Labels.

Section Cards.

Variable L : Locale.

(** X22: what the list shows.  After a completed session and [k] calls of
    the scroller, the cards are those of the first 5 (k + 1) notes of the
    answer of the relay, in its order: each with the note's id as key, its
    date label, its content, the link [nostr:] followed by the encoded id,
    and the encoded id as the text to copy. *)
Theorem cards_after_session env noteEncode w key k :
  npub (app w) <> "" ->
  nip19_decode env (npub (app w)) = Returns {| type := "npub"; data := key |} ->
  key <> "" ->
  relay_connect env = Connected ->
  cards L noteEncode (app (reveal k (exec (handleSubmit env) w)))
  = map (fun e =>
           {| card_key := id e;
              card_date := formatCreateAtDate L (created_at e);
              card_content := content e;
              card_href := ("nostr:" ++ noteEncode (id e))%string;
              card_copies := noteEncode (id e) |})
        (firstn (5 * (k + 1)) (relay_list env [submitted_filter env (app w) key])).
Proof.
  intros Hn Hd Hk Hc.
  apply truthy_not_empty in Hn. apply truthy_not_empty in Hk.
  assert (E : exec (handleSubmit env) w = exec (onConnect env (app w) key) (connecting w)).
  { rewrite handleSubmit_exec, Hn, Hd, Hc. cbn [type data negb].
    now rewrite String.eqb_refl, Hk. }
  rewrite E. unfold cards.
  change (events (app (reveal k (exec (onConnect env (app w) key) (connecting w)))))
    with (results (reveal k (exec (onConnect env (app w) key) (connecting w)))).
  change (currentDataLength (app (reveal k (exec (onConnect env (app w) key) (connecting w)))))
    with (cursor (reveal k (exec (onConnect env (app w) key) (connecting w)))).
  destruct (onConnect_installs env (app w) key (connecting w)) as [Hr Hcur].
  rewrite reveal_results, reveal_cursor by (rewrite Hr, Hcur; lia).
  rewrite Hr, Hcur. unfold fetched.
  set (l := relay_list env [submitted_filter env (app w) key]).
  f_equal.
  destruct (Nat.le_gt_cases (List.length l) (5 * (k + 1))) as [Hle|Hgt].
  - rewrite (firstn_all2 (n := 5 * (k + 1))) by exact Hle.
    apply firstn_all2. lia.
  - f_equal. lia.
Qed.

End Cards.

(* ===================================================================== *)
(** * The sample session, further *)
(* ===================================================================== *)

Lemma note_query_shape_witness :
  In (RelayList [alice_filter])
     (issued (handleSubmit (sample_env Connected)) (sample_world "npub1alice" true))
  /\ kinds alice_filter = [1%Z]
  /\ search alice_filter = None
  /\ (since alice_filter = None <-> "2023-01-01" = "")
  /\ (until alice_filter = None <-> "" = "").
Proof.
  assert (H : In (RelayList [alice_filter])
                 (issued (handleSubmit (sample_env Connected))
                         (sample_world "npub1alice" true))).
  { vm_compute. auto. }
  split; [exact H|].
  apply (@note_query_shape (sample_env Connected) (sample_world "npub1alice" true)
           [alice_filter] alice_filter H).
  left. reflexivity.
Defined.

Lemma session_requests_witness :
  issued (handleSubmit (sample_env Connected)) (sample_world "npub1alice" true)
  = [RelayInit "wss://relay.nostr.band"; RelayConnect;
     RelayGet {| kinds := [3%Z]; authors := [Some "a11ce"];
                 search := None; since := None; until := None |};
     RelayList [alice_filter]; RelayClose].
Proof.
  apply (@session_requests (sample_env Connected) (sample_world "npub1alice" true) "a11ce");
    [discriminate|reflexivity|discriminate].
Defined.

Lemma pending_keeps_busy_witness :
  isSearching (app (exec (handleSubmit (sample_env Pending))
                         (sample_world "npub1alice" true))) = true
  /\ results (exec (handleSubmit (sample_env Pending)) (sample_world "npub1alice" true))
     = [note 0]
  /\ cursor (exec (handleSubmit (sample_env Pending)) (sample_world "npub1alice" true))
     = 1%nat
  /\ toasts (exec (handleSubmit (sample_env Pending)) (sample_world "npub1alice" true))
     = []
  /\ issued (handleSubmit (sample_env Pending)) (sample_world "npub1alice" true)
     = [RelayInit RELAY_URL; RelayConnect].
Proof.
  apply (@pending_keeps_busy (sample_env Pending) (sample_world "npub1alice" true) "a11ce");
    [discriminate|reflexivity|discriminate|reflexivity].
Defined.

(** The silent relay answers with no note: the note shown before goes, and
    the notice appears. *)
Lemma submit_installs_results_witness :
  results (exec (handleSubmit silent_env) (sample_world "npub1alice" false)) = []
  /\ visible (app (exec (handleSubmit silent_env) (sample_world "npub1alice" false)))
     = firstn 5 (results (exec (handleSubmit silent_env)
                               (sample_world "npub1alice" false)))
  /\ isSearching (app (exec (handleSubmit silent_env)
                            (sample_world "npub1alice" false))) = false
  /\ new_toasts (handleSubmit silent_env) (sample_world "npub1alice" false)
     = [{| title := "no events found"; status := "info" |}].
Proof.
  assert (Hn : npub (app (sample_world "npub1alice" false)) <> "") by discriminate.
  assert (Hk : "a11ce" <> "") by discriminate.
  pose proof (@submit_installs_results silent_env (sample_world "npub1alice" false)
                "a11ce" Hn eq_refl Hk eq_refl) as H.
  cbv zeta in H. destruct H as (H1 & H2 & H3 & H4).
  split; [exact H1|]. split; [exact H2|]. split; [exact H3|].
  rewrite H4, H1. reflexivity.
Defined.

Lemma empty_key_aborts_witness :
  exec (handleSubmit empty_key_env) (sample_world "npub1alice" true)
  = sample_world "npub1alice" true.
Proof.
  apply (@empty_key_aborts empty_key_env (sample_world "npub1alice" true));
    [discriminate|reflexivity].
Defined.

(** The page bookmarked with [fromDate=soon]. *)
Lemma dates_are_not_validated_witness :
  fromDate (app (load UTF8.sanitize bookmarked)) = "soon"
  /\ In (RelayList [submitted_filter (sample_env Connected)
                      (app (load UTF8.sanitize bookmarked)) "a11ce"])
        (issued (handleSubmit (sample_env Connected)) (load UTF8.sanitize bookmarked))
  /\ since (submitted_filter (sample_env Connected)
              (app (load UTF8.sanitize bookmarked)) "a11ce") = Some NaN.
Proof.
  destruct (@dates_are_not_validated (sample_env Connected)
              (load UTF8.sanitize bookmarked) "a11ce")
    as (Hq & Hs & _); [discriminate|reflexivity|discriminate|reflexivity|].
  split; [reflexivity|]. split; [exact Hq|].
  apply Hs; [discriminate|reflexivity].
Defined.

Lemma missing_contact_list_witness :
  issued (handleSubmit silent_env) (sample_world "npub1alice" true)
  = [RelayInit RELAY_URL; RelayConnect; RelayGet (contact_filter "a11ce");
     RelayList [submitted_filter silent_env (sample_form "npub1alice" true) "a11ce"];
     RelayClose]
  /\ authors (submitted_filter silent_env (sample_form "npub1alice" true) "a11ce")
     = [Some "a11ce"].
Proof.
  apply (@missing_contact_list silent_env (sample_world "npub1alice" true) "a11ce");
    [discriminate|reflexivity|discriminate|reflexivity|reflexivity|reflexivity].
Defined.

(** Typing a query into the page [/?query=gm&npub=npub1bob&query=old], and
    into the page [//search?query=gm] of another host. *)
Lemma field_change_rewrites_address_witness :
  address_params UTF8.sanitize (sample_world "" false)
  = [("query", "gm"); ("npub", "npub1bob"); ("query", "old")]
  /\ address_params UTF8.sanitize
       (exec (onFieldChange UTF8.sanitize other_origin FieldQuery "zaps")
             (sample_world "" false))
     = [("query", "zaps"); ("npub", "npub1bob")]
  /\ pathname (location (exec (onFieldChange UTF8.sanitize other_origin FieldQuery "zaps")
                              (sample_world "" false))) = "/"
  /\ onFieldChange UTF8.sanitize other_origin FieldQuery "zaps" doubled_slash
     = (Threw, doubled_slash).
Proof.
  destruct (@field_change_rewrites_address UTF8.sanitize other_origin
              UTF8Facts.sanitize_lawful FieldQuery "zaps" (sample_world "" false) eq_refl)
    as (_ & H).
  destruct (H eq_refl) as (Ha & _ & Hp & _).
  destruct (@field_change_rewrites_address UTF8.sanitize other_origin
              UTF8Facts.sanitize_lawful FieldQuery "zaps" doubled_slash eq_refl)
    as (Hno & _).
  split; [reflexivity|]. split; [exact Ha|]. split; [exact (Hp eq_refl)|].
  exact (Hno eq_refl).
Defined.

Lemma field_change_keeps_other_parameters_witness :
  occurrences "query" (address_params UTF8.sanitize (sample_world "" false)) = 2%nat
  /\ occurrences "query"
       (address_params UTF8.sanitize
          (exec (onFieldChange UTF8.sanitize other_origin FieldQuery "")
                (sample_world "" false)))
     = 0%nat
  /\ URLSearchParams.get "npub"
       (address_params UTF8.sanitize
          (exec (onFieldChange UTF8.sanitize other_origin FieldQuery "")
                (sample_world "" false)))
     = Some "npub1bob".
Proof.
  destruct (@field_change_keeps_other_parameters UTF8.sanitize other_origin
              UTF8Facts.sanitize_lawful FieldQuery "" (sample_world "" false)
              eq_refl eq_refl)
    as (Ho & _ & Hg).
  split; [reflexivity|]. split; [exact Ho|].
  rewrite (Hg "npub"); [reflexivity|discriminate].
Defined.


Lemma field_change_last_wins_witness :
  exec (onFieldChange UTF8.sanitize other_origin FieldQuery "zaps")
       (exec (onFieldChange UTF8.sanitize other_origin FieldQuery "za")
             (sample_world "" false))
  = exec (onFieldChange UTF8.sanitize other_origin FieldQuery "zaps")
         (sample_world "" false).
Proof.
  apply (@field_change_last_wins UTF8.sanitize other_origin UTF8Facts.sanitize_lawful
           FieldQuery "za" "zaps" (sample_world "" false));
    [reflexivity|reflexivity|reflexivity|left; discriminate].
Defined.




(** New Year 2023 at midnight UTC, seen five hours behind UTC. *)
Lemma label_shows_local_day_witness :
  formatCreateAtDate new_york_english 1672531200 = "Dec 31".
Proof.
  rewrite (proj1 (@label_shows_local_day new_york_english 1672531200) 2022 12 31)%Z;
    [reflexivity|..];
    vm_compute; try split; solve [reflexivity | discriminate].
Defined.

Lemma label_at_date_bound_witness :
  JSDate.legal_date 2023 1 1 = true
  /\ convertDateToUnixTimestamp (sample_env Connected) "2023-01-01"
     = number_of_Z 1672531200
  /\ formatCreateAtDate utc_english 1672531200 = "Jan 1".
Proof.
  destruct (@label_at_date_bound utc_english (sample_env Connected) 2023 1 1 eq_refl)%Z
    as (Hb & Hl & _).
  split; [reflexivity|]. split; [exact Hb|].
  cbv zeta in Hl.
  assert (Htza : (0 <= LocalTZA utc_english (86400 * JSDate.DayNumber 2023 1 1 * 1000)
                  < JSDate.msPerDay)%Z)
    by (vm_compute; split; solve [reflexivity | discriminate]).
  exact (eq_trans (Hl Htza) eq_refl).
Defined.

(** Twelve notes and one scroll: ten cards. *)
Lemma cards_after_session_witness :
  List.length (cards utc_english (fun noteId => "note1" ++ noteId)%string
                 (app (reveal 1 (exec (handleSubmit (sample_env Connected))
                                      (sample_world "npub1alice" false)))))
  = 10%nat
  /\ hd_error (cards utc_english (fun noteId => "note1" ++ noteId)%string
                 (app (reveal 1 (exec (handleSubmit (sample_env Connected))
                                      (sample_world "npub1alice" false)))))
     = Some {| card_key := "e"; card_date := "Jan 1"; card_content := "gm";
               card_href := "nostr:note1e"; card_copies := "note1e" |}.
Proof.
  assert (Hn : npub (app (sample_world "npub1alice" false)) <> "") by discriminate.
  assert (Hk : "a11ce" <> "") by discriminate.
  pose proof (@cards_after_session utc_english (sample_env Connected)
                (fun noteId => "note1" ++ noteId)%string
                (sample_world "npub1alice" false) "a11ce" 1 Hn eq_refl Hk eq_refl) as H.
  rewrite H. split; reflexivity.
Defined.
